(** * Appveyor Python client: request dispatch and response interpretation

    A shallow embedding of [appveyor_client/client.py].

    - Python values that travel through the client (arguments, decoded JSON
      payloads, request dictionaries) are the inductive type [Py.value];
      a [dict] is an association list in insertion order, which is the order
      [json.dumps] and [str] print it in.
    - Python text is a Rocq [string], read as a sequence of code points
      below 256; the few [str] methods the client calls ([lower], [strip],
      [split], [format], [repr]) are written out for that range.
    - Exceptions are the type [exn]; a computation that talks to the network
      is a function from the list of requests issued so far to an outcome
      (exception or value) and the new list, so that "nothing was sent" is
      a statement about that list.
    - The HTTP transport ([requests.Session]) is a field of the client: any
      function from the history and the request to a response or a transport
      exception.
    - A client value is a constructed client: its endpoint and its session.
      The session's headers are read by no method; the constructor, which
      sets them and authenticates, carries them as an explicit value. *)

From Stdlib Require Import ZArith NArith String Ascii List Bool Lia DecimalString.
Import ListNotations.
Local Open Scope Z_scope.
Local Open Scope string_scope.

(** ** Python values and the builtins the client uses *)

Module Py.

#[local] Set Warnings "-register-all".

Inductive value : Type :=
| VNone
| VBool (b : bool)
| VInt (z : Z)
| VStr (s : string)
| VList (l : list value)
| VDict (d : list (string * value)).

(** [bool(v)]: the test behind [if v:] and [not v]. *)
Definition truthy (v : value) : bool :=
  match v with
  | VNone => false
  | VBool b => b
  | VInt z => negb (z =? 0)%Z
  | VStr s => negb (s =? "")
  | VList l => match l with [] => false | _ :: _ => true end
  | VDict d => match d with [] => false | _ :: _ => true end
  end.

(** [v is None] *)
Definition is_none (v : value) : bool :=
  match v with VNone => true | _ => false end.

(** *** Characters *)

Definition code (c : ascii) : N := N_of_ascii c.

(** The double-quote character. *)
Definition dquote : ascii := ascii_of_N 34.

Definition hex_digit (n : N) : ascii :=
  ascii_of_N (if (n <? 10)%N then 48 + n else 87 + n)%N.

Definition hex2 (c : ascii) : string :=
  String (hex_digit (code c / 16)) (String (hex_digit (code c mod 16)) "").

(** [str.isspace] on one code point below 256. *)
Definition is_space (c : ascii) : bool :=
  let n := code c in
  ((9 <=? n) && (n <=? 13) || (28 <=? n) && (n <=? 32)
   || (n =? 133) || (n =? 160))%N.

(** [str.lower] on one code point below 256. *)
Definition lower_char (c : ascii) : ascii :=
  let n := code c in
  if ((65 <=? n) && (n <=? 90)
      || (192 <=? n) && (n <=? 222) && negb (n =? 215))%N
  then ascii_of_N (n + 32) else c.

(** *** Strings *)

Fixpoint lower (s : string) : string :=
  match s with
  | EmptyString => EmptyString
  | String c r => String (lower_char c) (lower r)
  end.

Fixpoint lstrip (s : string) : string :=
  match s with
  | EmptyString => EmptyString
  | String c r => if is_space c then lstrip r else s
  end.

Fixpoint rstrip (s : string) : string :=
  match s with
  | EmptyString => EmptyString
  | String c r =>
      let r' := rstrip r in
      if is_space c && (r' =? "") then EmptyString else String c r'
  end.

(** [s.strip()] *)
Definition strip (s : string) : string := rstrip (lstrip s).

(** [s.split(sep)] for a one-character separator: always at least one
    piece, one more piece than there are separators. *)
Fixpoint split (sep : ascii) (s : string) : list string :=
  match s with
  | EmptyString => [EmptyString]
  | String c r =>
      if Ascii.eqb c sep then EmptyString :: split sep r
      else match split sep r with
           | h :: t => String c h :: t
           | [] => [String c EmptyString]
           end
  end.

(** [c in s] for a character. *)
Fixpoint has_char (c : ascii) (s : string) : bool :=
  match s with
  | EmptyString => false
  | String d r => Ascii.eqb c d || has_char c r
  end.

(** [sub in s] for strings. *)
Fixpoint contains (sub s : string) : bool :=
  prefix sub s
  || match s with
     | EmptyString => false
     | String _ r => contains sub r
     end.

(** [s[1:]] *)
Definition tail (s : string) : string :=
  match s with
  | EmptyString => EmptyString
  | String _ r => r
  end.

(** *** [repr] and [str] *)

Definition repr_char (quote c : ascii) : string :=
  let n := code c in
  if Ascii.eqb c "\" then "\\"
  else if Ascii.eqb c quote then String "\" (String quote "")
  else if (n =? 9)%N then "\t"
  else if (n =? 10)%N then "\n"
  else if (n =? 13)%N then "\r"
  else if ((n <? 32) || (127 <=? n) && (n <=? 160) || (n =? 173))%N
       then "\x" ++ hex2 c
  else String c "".

Fixpoint repr_chars (quote : ascii) (s : string) : string :=
  match s with
  | EmptyString => EmptyString
  | String c r => repr_char quote c ++ repr_chars quote r
  end.

(** [repr(s)] of a string: single quotes unless the text has a single
    quote and no double quote. *)
Definition repr_str (s : string) : string :=
  let quote : ascii :=
    if has_char "'" s && negb (has_char dquote s) then dquote else "'"%char in
  String quote (repr_chars quote s ++ String quote "").

Definition str_int (z : Z) : string := NilZero.string_of_int (Z.to_int z).

Fixpoint repr (v : value) : string :=
  match v with
  | VNone => "None"
  | VBool b => if b then "True" else "False"
  | VInt z => str_int z
  | VStr s => repr_str s
  | VList l =>
      "[" ++ String.concat ", " (map repr l) ++ "]"
  | VDict d =>
      "{" ++ String.concat ", "
               (map (fun kv => repr_str (fst kv) ++ ": " ++ repr (snd kv)) d)
          ++ "}"
  end.

(** [str(v)] *)
Definition str (v : value) : string :=
  match v with
  | VStr s => s
  | _ => repr v
  end.

(** *** Dictionaries *)

Fixpoint dict_get (d : list (string * value)) (k : string) : option value :=
  match d with
  | [] => None
  | (k', v) :: r => if k' =? k then Some v else dict_get r k
  end.

(** [d[k] = v]: overwrite in place, or append a new key. *)
Fixpoint dict_set (d : list (string * value)) (k : string) (v : value)
  : list (string * value) :=
  match d with
  | [] => [(k, v)]
  | (k', v') :: r =>
      if k' =? k then (k, v) :: r else (k', v') :: dict_set r k v
  end.

(** *** [json.dumps] with its defaults *)

Definition json_char (c : ascii) : string :=
  let n := code c in
  if Ascii.eqb c dquote then String "\" (String dquote "")
  else if Ascii.eqb c "\" then "\\"
  else if (n =? 10)%N then "\n"
  else if (n =? 13)%N then "\r"
  else if (n =? 9)%N then "\t"
  else if (n =? 8)%N then "\b"
  else if (n =? 12)%N then "\f"
  else if ((n <? 32) || (126 <? n))%N then "\u00" ++ hex2 c
  else String c "".

Fixpoint json_chars (s : string) : string :=
  match s with
  | EmptyString => EmptyString
  | String c r => json_char c ++ json_chars r
  end.

Definition json_str (s : string) : string :=
  String dquote (json_chars s ++ String dquote "").

Fixpoint json_dumps (v : value) : string :=
  match v with
  | VNone => "null"
  | VBool b => if b then "true" else "false"
  | VInt z => str_int z
  | VStr s => json_str s
  | VList l =>
      "[" ++ String.concat ", " (map json_dumps l) ++ "]"
  | VDict d =>
      "{" ++ String.concat ", "
               (map (fun kv => json_str (fst kv) ++ ": " ++ json_dumps (snd kv)) d)
          ++ "}"
  end.

End Py.

Import Py.

(** ** Exceptions *)

(** [AppveyorError] and [AppveyorClientError] are the two classes the
    module declares; the others are the builtin exceptions its statements
    can raise.  [TransportError] stands for whatever [requests] raises. *)
Inductive exn : Type :=
| AppveyorError (contents : value)
| AppveyorClientError (msg : string)
| UnboundLocalError (name : string)
| ValueError (msg : string)
| KeyError (key : string)
| TypeError (msg : string)
| AttributeError (name : string)
| TransportError (msg : string).

Definition result (A : Type) : Type := (exn + A)%type.

(** ** Builtins that can raise *)

Definition prepend (s : string) (r : result string) : result string :=
  match r with
  | inl e => inl e
  | inr t => inr (s ++ t)
  end.

(** [template.format(name=v, ...)] for templates whose replacement fields are
    plain names, which is every template of the client.  [field] is the
    name read so far while inside braces. *)
Fixpoint format_from (kwargs : list (string * value)) (t : string)
         (field : option string) {struct t} : result string :=
  match t with
  | EmptyString =>
      match field with
      | None => inr EmptyString
      | Some _ => inl (ValueError "expected '}' before end of string")
      end
  | String c r =>
      match field with
      | Some name =>
          if Ascii.eqb c "}" then
            match dict_get kwargs name with
            | Some v => prepend (str v) (format_from kwargs r None)
            | None => inl (KeyError name)
            end
          else format_from kwargs r (Some (name ++ String c EmptyString))
      | None =>
          if Ascii.eqb c "{" then
            match r with
            | String "{"%char r' => prepend "{" (format_from kwargs r' None)
            | _ => format_from kwargs r (Some EmptyString)
            end
          else if Ascii.eqb c "}" then
            match r with
            | String "}"%char r' => prepend "}" (format_from kwargs r' None)
            | _ => inl (ValueError "Single '}' encountered in format string")
            end
          else prepend (String c EmptyString) (format_from kwargs r None)
      end
  end.

Definition format (template : string) (kwargs : list (string * value))
  : result string :=
  format_from kwargs template None.

(** [v[k]] for a string key. *)
Definition getitem (v : value) (k : string) : result value :=
  match v with
  | VDict d =>
      match dict_get d k with
      | Some x => inr x
      | None => inl (KeyError k)
      end
  | VList _ => inl (TypeError "list indices must be integers or slices, not str")
  | VStr _ => inl (TypeError "string indices must be integers")
  | _ => inl (TypeError "object is not subscriptable")
  end.

(** [v.lower()] *)
Definition lower_method (v : value) : result string :=
  match v with
  | VStr s => inr (lower s)
  | _ => inl (AttributeError "lower")
  end.

Fixpoint chars (s : string) : list value :=
  match s with
  | EmptyString => []
  | String c r => VStr (String c EmptyString) :: chars r
  end.

(** The items a [for] loop over [v] visits. *)
Definition iter (v : value) : result (list value) :=
  match v with
  | VList l => inr l
  | VDict d => inr (map (fun kv => VStr (fst kv)) d)
  | VStr s => inr (chars s)
  | _ => inl (TypeError "object is not iterable")
  end.

(** ** HTTP data *)

Inductive Verb : Type := GET | POST | PUT | DELETE.

(** What one call on the session puts on the wire: the verb, the full URL
    and the [data=] and [json=] keyword arguments when the call passes
    them. *)
Record Request : Type := mkRequest {
  req_verb : Verb;
  req_url : string;
  req_data : option string;
  req_json : option value
}.

(** A [requests.Response] as the client reads it: [json] is what
    [response.json()] returns, [None] when it raises. *)
Record Response : Type := mkResponse {
  status_code : Z;
  text : string;
  json : option value
}.

(** The session: given the requests issued before and the present one,
    the response, or the exception the transport raises. *)
Record Session : Type := mkSession {
  transport : list Request -> Request -> result Response
}.

Record AppveyorClient : Type := mkClient {
  _endpoint : string;
  _session : Session
}.

(** ** Computations over the request log *)

Definition World : Type := list Request.

Definition M (A : Type) : Type := World -> result A * World.

Definition ret {A : Type} (a : A) : M A := fun w => (inr a, w).

Definition raise {A : Type} (e : exn) : M A := fun w => (inl e, w).

Definition lift {A : Type} (r : result A) : M A := fun w => (r, w).

Definition bind {A B : Type} (m : M A) (k : A -> M B) : M B :=
  fun w =>
    match m w with
    | (inl e, w') => (inl e, w')
    | (inr a, w') => k a w'
    end.

Notation "x <- m ;; k" := (bind m (fun x => k))
  (at level 61, m at next level, right associativity).

(** The outcome of a computation and the requests it issued. *)
Definition outcome {A : Type} (m : M A) (w : World) : result A := fst (m w).
Definition issued {A : Type} (m : M A) (w : World) : World := snd (m w).

(** One call of [self._session.get/post/put/delete]. *)
Definition session_call (c : AppveyorClient) (rq : Request) : M Response :=
  fun w => (transport (_session c) w rq, (w ++ [rq])%list).

(** ** The client: [class AppveyorClient] *)

(** [self._make_url(url)] *)
Definition _make_url (c : AppveyorClient) (url : string) : string :=
  _endpoint c ++ url.

(** The text of the diagnostic: the dedented literal of the source without
    its first line break. *)
Definition unexpected_error_text : string :=
  "Unexpected error
    Possible reasons are:
     - Communication with Appveyor has failed.
     - Insufficient permissions.
     - Invalid contents returned.
".

(** [contents[key] = v] *)
Definition setitem (contents : value) (key : string) (v : value)
  : result value :=
  match contents with
  | VDict d => inr (VDict (dict_set d key v))
  | _ => inl (TypeError "object does not support item assignment")
  end.

(** [AppveyorClient._parse_response_contents(response)].

    The [try] block decodes the body only when the status is 200 and
    binds [contents] to an empty dict otherwise, so the handler runs only
    for a 200 whose body does not decode.  In the handler [error_msg] is
    assigned only when the trimmed text is empty; building the record with
    a non-empty text reads the unassigned local. *)
Definition _parse_response_contents (response : Response) : result value :=
  let status_code := status_code response in
  match (if (status_code =? 200)%Z then json response else Some (VDict [])) with
  | None =>
      let error := strip (text response) in
      let error_msg :=
        if negb (truthy (VStr error)) then Some unexpected_error_text
        else None in
      match error_msg with
      | None => inl (UnboundLocalError "error_msg")
      | Some error_msg =>
          inl (AppveyorError
                 (VDict [("status_code", VInt status_code);
                         ("error", VStr error_msg)]))
      end
  | Some contents =>
      if (status_code =? 200)%Z then inr contents
      else if (status_code =? 204)%Z then inr VNone
      else
        match setitem contents "status_code" (VInt status_code) with
        | inl e => inl e
        | inr contents => inl (AppveyorError contents)
        end
  end.

(** [self._get(url, data, json)]: the keyword arguments are dropped. *)
Definition _get (c : AppveyorClient) (url : string)
           (data : option string) (json : option value) : M value :=
  response <- session_call c (mkRequest GET (_make_url c url) None None) ;;
  lift (_parse_response_contents response).

Definition _post (c : AppveyorClient) (url : string)
           (data : option string) (json : option value) : M value :=
  response <- session_call c (mkRequest POST (_make_url c url) data json) ;;
  lift (_parse_response_contents response).

Definition _put (c : AppveyorClient) (url : string)
           (data : option string) (json : option value) : M value :=
  response <- session_call c (mkRequest PUT (_make_url c url) data json) ;;
  lift (_parse_response_contents response).

(** [self._delete(url, data, json)]: the keyword arguments are dropped. *)
Definition _delete (c : AppveyorClient) (url : string)
           (data : option string) (json : option value) : M value :=
  response <- session_call c (mkRequest DELETE (_make_url c url) None None) ;;
  lift (_parse_response_contents response).

(** [self._request(method_url, body, json)].  The two-name unpacking of
    [method_url.split(' ')] raises unless there is exactly one blank.  The
    [getattr] lookup is the finite table of the four handlers; every
    [method_url] of the module starts with one of the four verbs. *)
Definition _request (c : AppveyorClient) (method_url : string)
           (body : option string) (json : option value) : M value :=
  match split " " method_url with
  | [method; url] =>
      let name := "_" ++ lower method in
      if name =? "_get" then _get c url body json
      else if name =? "_post" then _post c url body json
      else if name =? "_put" then _put c url body json
      else if name =? "_delete" then _delete c url body json
      else raise (AttributeError name)
  | [] | [_] =>
      raise (ValueError "not enough values to unpack (expected 2, got 1)")
  | _ => raise (ValueError "too many values to unpack (expected 2)")
  end.

(** ** Resource groups *)

Module Users.

(** [Users.get(user_id=None)] *)
Definition get (c : AppveyorClient) (user_id : value) : M value :=
  let method_url := "GET /api/users" in
  let method_url :=
    if truthy user_id then method_url ++ "/{user_id}" else method_url in
  method_url <- lift (format method_url [("user_id", user_id)]) ;;
  _request c method_url None None.

(** [Users.add(full_name, email, role_id, password=None,
    generate_password=False)] *)
Definition add (c : AppveyorClient)
           (full_name email role_id password generate_password : value)
  : M value :=
  let method_url := "POST /api/users" in
  let data := [("fullName", full_name); ("email", email);
               ("roleId", role_id);
               ("generatePassword", generate_password)] in
  data <-
    (if negb (truthy generate_password) then
       if truthy password then
         ret (dict_set (dict_set data "password" password)
                       "confirmPassword" password)
       else
         raise (AppveyorClientError
                  "Must provide a password if generate is Fasle")
     else ret data) ;;
  let body := json_dumps (VDict data) in
  _request c method_url (Some body) None.

(** [Users.delete(user_id)] *)
Definition delete (c : AppveyorClient) (user_id : value) : M value :=
  let method_url := "DELETE /api/users/{user_id}" in
  method_url <- lift (format method_url [("user_id", user_id)]) ;;
  _request c method_url None None.

(** [Users.update(user)] *)
Definition update (c : AppveyorClient) (user : value) : M value :=
  let method_url := "PUT /api/users" in
  let body := json_dumps user in
  _request c method_url (Some body) None.

End Users.

Module Collaborators.

(** [Collaborators.get(user_id=None)] *)
Definition get (c : AppveyorClient) (user_id : value) : M value :=
  let method_url := "DELETE /api/users" in
  let method_url :=
    if truthy user_id then method_url ++ "/{user_id}" else method_url in
  method_url <- lift (format method_url [("user_id", user_id)]) ;;
  _request c method_url None None.

(** [Collaborators.delete(user_id)] *)
Definition delete (c : AppveyorClient) (user_id : value) : M value :=
  let method_url := "DELETE /api/collaborators/{user_id}" in
  method_url <- lift (format method_url [("user_id", user_id)]) ;;
  _request c method_url None None.

(** [Collaborators.add(email, role_id)] *)
Definition add (c : AppveyorClient) (email role_id : value) : M value :=
  let method_url := "POST /api/collaborators" in
  let data := [("email", email); ("roleId", role_id)] in
  let body := json_dumps (VDict data) in
  _request c method_url (Some body) None.

(** [Collaborators.update(user_id, role_id)] *)
Definition update (c : AppveyorClient) (user_id role_id : value) : M value :=
  let method_url := "PUT /api/collaborators" in
  let data := [("userId", user_id); ("roleId", role_id)] in
  let body := json_dumps (VDict data) in
  _request c method_url (Some body) None.

End Collaborators.

Module Roles.

(** [Roles.get(role_id=None)]: no [format] call follows the append. *)
Definition get (c : AppveyorClient) (role_id : value) : M value :=
  let method_url := "GET /api/roles" in
  let method_url :=
    if truthy role_id then method_url ++ "/{role_id}" else method_url in
  _request c method_url None None.

(** [Roles.delete_role(role_id)]: the template goes to [_request] as it
    is, no [format] call. *)
Definition delete_role (c : AppveyorClient) (role_id : value) : M value :=
  let method_url := "DELETE /api/roles/{role_id}" in
  _request c method_url None None.

(** [Roles.add_role(name)] *)
Definition add_role (c : AppveyorClient) (name : value) : M value :=
  let method_url := "POST /api/roles" in
  let data := [("name", name)] in
  let body := json_dumps (VDict data) in
  _request c method_url (Some body) None.

(** [Roles.update_role(role)] *)
Definition update_role (c : AppveyorClient) (role : value) : M value :=
  let method_url := "PUT /api/roles" in
  let body := json_dumps role in
  _request c method_url (Some body) None.

End Roles.

Module Projects.

(** [Projects.get()] *)
Definition get (c : AppveyorClient) : M value :=
  let method_url := "GET /api/projects" in
  _request c method_url None None.

Definition providers : list string :=
  ["gitHub"; "bitBucket"; "vso"; "gitLab"; "kiln"; "stash"; "git";
   "mercurial"; "subversion"].

(** [v in providers]: equality with a [str] holds for an equal [str]
    only. *)
Definition in_providers (v : value) : bool :=
  match v with
  | VStr s => existsb (String.eqb s) providers
  | _ => false
  end.

Definition invalid_provider_msg : string :=
  "Invalid repository provider. Must be one of "
  ++ str (VStr (str (VList (map VStr providers)))).

(** [Projects.add(repository_provider, repository_name)] *)
Definition add (c : AppveyorClient)
           (repository_provider repository_name : value) : M value :=
  let method_url := "POST /api/projects" in
  if negb (in_providers repository_provider) then
    raise (AppveyorClientError invalid_provider_msg)
  else
    let data := [("repositoryProvider", repository_provider);
                 ("repositoryName", repository_name)] in
    let body := json_dumps (VDict data) in
    _request c method_url (Some body) None.

(** [Projects.last_build(account_name, project_slug)] *)
Definition last_build (c : AppveyorClient) (account_name project_slug : value)
  : M value :=
  let method_url := "GET /api/projects/{account_name}/{project_slug}" in
  method_url <- lift (format method_url [("account_name", account_name);
                                         ("project_slug", project_slug)]) ;;
  _request c method_url None None.

(** [Projects.last_branch_build(account_name, project_slug, build_branch)] *)
Definition last_branch_build (c : AppveyorClient)
           (account_name project_slug build_branch : value) : M value :=
  let method_url := "GET /api/projects/{account_name}/{project_slug}"
                    ++ "/branch/{build_branch}" in
  method_url <- lift (format method_url [("account_name", account_name);
                                         ("project_slug", project_slug);
                                         ("build_branch", build_branch)]) ;;
  _request c method_url None None.

(** [Projects.build(account_name, project_slug, build_version)] *)
Definition build (c : AppveyorClient)
           (account_name project_slug build_version : value) : M value :=
  let method_url := "GET /api/projects/{account_name}/{project_slug}"
                    ++ "/build/{build_version}" in
  method_url <- lift (format method_url [("account_name", account_name);
                                         ("project_slug", project_slug);
                                         ("build_version", build_version)]) ;;
  _request c method_url None None.

(** [Projects.history(account_name, project_slug, records_per_page=50,
    start_build_id=None, branch=None)]: a falsy [start_build_id] or
    [branch] is rebound to the empty string and its bare field appended,
    so that the one [format] call finds every name. *)
Definition history (c : AppveyorClient)
           (account_name project_slug records_per_page start_build_id
              branch : value) : M value :=
  let method_url := "GET /api/projects/{account_name}/{project_slug}"
                    ++ "/history?recordsNumber={records_per_page}" in
  let (start_build_id, method_url) :=
    if truthy start_build_id
    then (start_build_id, method_url ++ "&startBuildId={start_build_id}")
    else (VStr EmptyString, method_url ++ "{start_build_id}") in
  let (branch, method_url) :=
    if truthy branch
    then (branch, method_url ++ "&branch={branch}")
    else (VStr EmptyString, method_url ++ "{branch}") in
  method_url <- lift (format method_url
                             [("account_name", account_name);
                              ("project_slug", project_slug);
                              ("records_per_page", records_per_page);
                              ("start_build_id", start_build_id);
                              ("branch", branch)]) ;;
  _request c method_url None None.

(** [Projects.deployments(account_name, project_slug)] *)
Definition deployments (c : AppveyorClient)
           (account_name project_slug : value) : M value :=
  let method_url := "GET /api/projects/{account_name}/{project_slug}"
                    ++ "/deployments" in
  method_url <- lift (format method_url [("account_name", account_name);
                                         ("project_slug", project_slug)]) ;;
  _request c method_url None None.

(** [Projects.settings(account_name, project_slug)] *)
Definition settings (c : AppveyorClient)
           (account_name project_slug : value) : M value :=
  let method_url := "GET /api/projects/{account_name}/{project_slug}"
                    ++ "/settings/yaml" in
  method_url <- lift (format method_url [("account_name", account_name);
                                         ("project_slug", project_slug)]) ;;
  _request c method_url None None.

(** [Projects.update(account_name, project_slug, project)] *)
Definition update (c : AppveyorClient)
           (account_name project_slug project : value) : M value :=
  let method_url := "PUT /api/projects/{account_name}/{project_slug}"
                    ++ "/settings/build-number" in
  method_url <- lift (format method_url [("account_name", account_name);
                                         ("project_slug", project_slug)]) ;;
  let body := json_dumps project in
  _request c method_url (Some body) None.

(** [Projects.update_settings(account_name, project_slug, settings)] *)
Definition update_settings (c : AppveyorClient)
           (account_name project_slug settings : value) : M value :=
  let method_url := "PUT /api/projects/{account_name}/{project_slug}"
                    ++ "/settings/build-number" in
  method_url <- lift (format method_url [("account_name", account_name);
                                         ("project_slug", project_slug)]) ;;
  let body := json_dumps settings in
  _request c method_url (Some body) None.

(** [Projects.update_build_number(account_name, project_slug,
    next_build_number)]: the dict goes out through [json=]. *)
Definition update_build_number (c : AppveyorClient)
           (account_name project_slug next_build_number : value) : M value :=
  let method_url := "PUT /api/projects/{account_name}/{project_slug}"
                    ++ "/settings/build-number" in
  method_url <- lift (format method_url [("account_name", account_name);
                                         ("project_slug", project_slug)]) ;;
  let data := [("nextBuildNumber", next_build_number)] in
  _request c method_url None (Some (VDict data)).

(** [Projects.delete_build_cache(account_name, project_slug)] *)
Definition delete_build_cache (c : AppveyorClient)
           (account_name project_slug : value) : M value :=
  let method_url := "DELETE /api/projects/{account_name}/{project_slug}"
                    ++ "/buildcache" in
  method_url <- lift (format method_url [("account_name", account_name);
                                         ("project_slug", project_slug)]) ;;
  _request c method_url None None.

(** [Projects.delete(account_name, project_slug)] *)
Definition delete (c : AppveyorClient) (account_name project_slug : value)
  : M value :=
  let method_url := "DELETE /api/projects/{account_name}/{project_slug}" in
  method_url <- lift (format method_url [("account_name", account_name);
                                         ("project_slug", project_slug)]) ;;
  _request c method_url None None.

End Projects.

Module Builds.

Definition start_error_msg : string :=
  "Must provide only one of branch or one pull request id or one commit id".

(** [Builds.start(account_name, project_slug, branch=None,
    pull_request_number=None, commit=None, environment_variables={})].
    The second test reads [commit and not commit and ...]. *)
Definition start (c : AppveyorClient)
           (account_name project_slug branch pull_request_number commit
              environment_variables : value) : M value :=
  let method_url := "POST /api/builds" in
  let data := [("accountName", account_name);
               ("projectSlug", project_slug)] in
  data <-
    (if truthy branch && negb (truthy pull_request_number)
        && negb (truthy commit)
     then ret (dict_set data "branch" branch)
     else if truthy commit && negb (truthy commit)
             && negb (truthy pull_request_number)
     then ret (dict_set data "commitId" commit)
     else if truthy pull_request_number && negb (truthy commit)
             && negb (truthy branch)
     then ret (dict_set data "pullRequestId" pull_request_number)
     else raise (AppveyorClientError start_error_msg)) ;;
  let data :=
    if truthy environment_variables
    then dict_set data "environmentVariables" environment_variables
    else data in
  let body := json_dumps (VDict data) in
  _request c method_url (Some body) None.

(** [Builds.cancel(account_name, project_slug, build_version)] *)
Definition cancel (c : AppveyorClient)
           (account_name project_slug build_version : value) : M value :=
  let method_url := "DELETE /api/builds/{account_name}/{project_slug}"
                    ++ "/{build_version}" in
  method_url <- lift (format method_url [("account_name", account_name);
                                         ("project_slug", project_slug);
                                         ("build_version", build_version)]) ;;
  _request c method_url None None.

(** [Builds.log(job_id)] *)
Definition log (c : AppveyorClient) (job_id : value) : M value :=
  let method_url := "GET /api/buildjobs/{job_id}/log" in
  method_url <- lift (format method_url [("job_id", job_id)]) ;;
  _request c method_url None None.

End Builds.

Module Environments.

(** [Environments.get()] *)
Definition get (c : AppveyorClient) : M value :=
  let method_url := "GET /api/environments" in
  _request c method_url None None.

(** [Environments.settings(deployment_environment_id)] *)
Definition settings (c : AppveyorClient) (deployment_environment_id : value)
  : M value :=
  let method_url := "GET /api/environments/"
                    ++ "{deployment_environment_id}/settings" in
  method_url <- lift (format method_url
                             [("deployment_environment_id",
                               deployment_environment_id)]) ;;
  _request c method_url None None.

(** [Environments.deployments(deployment_environment_id)] *)
Definition deployments (c : AppveyorClient) (deployment_environment_id : value)
  : M value :=
  let method_url := "GET /api/environments/"
                    ++ "{deployment_environment_id}/deployments" in
  method_url <- lift (format method_url
                             [("deployment_environment_id",
                               deployment_environment_id)]) ;;
  _request c method_url None None.

(** [Environments.add(environment)] *)
Definition add (c : AppveyorClient) (environment : value) : M value :=
  let method_url := "POST /api/environments" in
  let body := json_dumps environment in
  _request c method_url (Some body) None.

(** [Environments.update(environment)] *)
Definition update (c : AppveyorClient) (environment : value) : M value :=
  let method_url := "PUT /api/environments" in
  let body := json_dumps environment in
  _request c method_url (Some body) None.

(** [Environments.delete(deployment_environment_id)] *)
Definition delete (c : AppveyorClient) (deployment_environment_id : value)
  : M value :=
  let method_url := "DELETE /api/environments/{deployment_environment_id}" in
  method_url <- lift (format method_url
                             [("deployment_environment_id",
                               deployment_environment_id)]) ;;
  _request c method_url None None.

End Environments.

Module Deployments.

(** [Deployments.get(deployment_id)] *)
Definition get (c : AppveyorClient) (deployment_id : value) : M value :=
  let method_url := "GET /api/deployments/{deployment_id}" in
  method_url <- lift (format method_url [("deployment_id", deployment_id)]) ;;
  _request c method_url None None.

(** [Deployments.start(account_name, project_slug, environment_name,
    build_version, build_job_id=None, environment_variables={})] *)
Definition start (c : AppveyorClient)
           (account_name project_slug environment_name build_version
              build_job_id environment_variables : value) : M value :=
  let method_url := "POST /api/deployments" in
  let data := [("environmentName", environment_name);
               ("accountName", account_name);
               ("projectSlug", project_slug);
               ("buildVersion", build_version);
               ("environmentVariables", environment_variables)] in
  let data :=
    if truthy build_job_id then dict_set data "buildJobId" build_job_id
    else data in
  let body := json_dumps (VDict data) in
  _request c method_url (Some body) None.

(** [Deployments.cancel(deployment_id)] *)
Definition cancel (c : AppveyorClient) (deployment_id : value) : M value :=
  let method_url := "PUT /api/deployments/stop" in
  let data := [("deploymentId", deployment_id)] in
  let body := json_dumps (VDict data) in
  _request c method_url (Some body) None.

End Deployments.

(** ** [AppveyorClient.account_slug_for_repo] *)

(** The body of the [for] loop over the fetched projects.  The two locals
    are unbound ([None]) until a project matches. *)
Fixpoint scan_projects (projects : list value) (repo_full_name : value)
  : result (option value * option value) :=
  match projects with
  | [] => inr (None, None)
  | project :: rest =>
      match getitem project "repositoryName" with
      | inl e => inl e
      | inr name =>
          match lower_method name with
          | inl e => inl e
          | inr l =>
              match lower_method repo_full_name with
              | inl e => inl e
              | inr r =>
                  if l =? r then
                    match getitem project "accountName" with
                    | inl e => inl e
                    | inr account_name =>
                        match getitem project "slug" with
                        | inl e => inl e
                        | inr project_slug =>
                            inr (Some account_name, Some project_slug)
                        end
                    end
                  else scan_projects rest repo_full_name
              end
          end
      end
  end.

(** Reading a local variable. *)
Definition read_local (name : string) (v : option value) : M value :=
  match v with
  | Some x => ret x
  | None => raise (UnboundLocalError name)
  end.

Definition account_slug_for_repo (c : AppveyorClient) (repo_full_name : value)
  : M (value * value) :=
  projects <- Projects.get c ;;
  items <- lift (iter projects) ;;
  vars <- lift (scan_projects items repo_full_name) ;;
  let (account_name, project_slug) := vars in
  a <- read_local "account_name" account_name ;;
  both_none <-
    (if is_none a then
       p <- read_local "project_slug" project_slug ;; ret (is_none p)
     else ret false) ;;
  if both_none then
    raise (AppveyorError
             (VStr ("Repository full name '" ++ str repo_full_name
                    ++ "'is invalid")))
  else
    a <- read_local "account_name" account_name ;;
    p <- read_local "project_slug" project_slug ;;
    ret (a, p).

(** ** Construction: [AppveyorClient.__init__] and [_authenticate] *)

(** The headers of the session, a case-insensitive dict: a key is found
    whatever its letter case, and an assignment to a key that is there
    replaces the entry where it stands, with the new spelling of the
    key. *)
Definition Headers : Type := list (string * string).

Fixpoint header_get (h : Headers) (k : string) : option string :=
  match h with
  | [] => None
  | (k', v) :: r => if lower k' =? lower k then Some v else header_get r k
  end.

Fixpoint header_set (h : Headers) (k v : string) : Headers :=
  match h with
  | [] => [(k, v)]
  | (k', v') :: r =>
      if lower k' =? lower k then (k, v) :: r
      else (k', v') :: header_set r k v
  end.

(** [headers.update(other)] *)
Definition headers_update (h other : Headers) : Headers :=
  fold_left (fun acc kv => header_set acc (fst kv) (snd kv)) other h.

(** [AppveyorClient._HEADERS] *)
Definition _HEADERS : Headers :=
  [("Content-type", "application/json");
   ("User-Agent", "Appveyor Python Client")].

Definition default_endpoint : string := "https://ci.appveyor.com/".

(** [self._authenticate(token)]: the header is set, then [/api/roles] is
    fetched.  The result pairs the headers of the session after the call
    with the computation of the request. *)
Definition _authenticate (c : AppveyorClient) (token : value)
           (headers : Headers) : Headers * M value :=
  let url := "/api/roles" in
  let headers := header_set headers "Authorization" ("Bearer " ++ str token) in
  (headers, _get c url None None).

(** [AppveyorClient(token, endpoint=None)].  [session] is the session the
    constructor creates and [session_headers] the headers it starts with;
    an endpoint that is [None] or empty gives the default one.  The value
    [_authenticate] returns is dropped, its exception is not caught. *)
Definition __init__ (session : Session) (session_headers : Headers)
           (token : value) (endpoint : option string)
  : Headers * M AppveyorClient :=
  let self :=
    mkClient (match endpoint with
              | Some e => if truthy (VStr e) then e else default_endpoint
              | None => default_endpoint
              end) session in
  let headers := headers_update session_headers _HEADERS in
  let (headers, call) := _authenticate self token headers in
  (headers, _ <- call ;; ret self).

(** ** A client for concrete runs *)

(** A client on the default endpoint whose server answers every request
    with the same response. *)
Definition sample_client (r : Response) : AppveyorClient :=
  mkClient "https://ci.appveyor.com/" (mkSession (fun _ _ => inr r)).

(** ** Notions used in the statements *)

(** What a sender returns for the request [rq]: the transport's exception,
    or the interpretation of its response. *)
Definition answer (c : AppveyorClient) (rq : Request) (w : World)
  : result value :=
  match transport (_session c) w rq with
  | inl e => inl e
  | inr response => _parse_response_contents response
  end.

(** The path [Collaborators.get] asks for. *)
Definition collaborators_get_path (user_id : value) : string :=
  "/api/users" ++ (if truthy user_id then "/" ++ str user_id else EmptyString).

(** The body [Builds.start] serialises once one of the three tests has
    chosen a field. *)
Definition start_body (account_name project_slug : value)
           (field : string) (v environment_variables : value) : string :=
  let data := dict_set [("accountName", account_name);
                        ("projectSlug", project_slug)] field v in
  json_dumps
    (VDict (if truthy environment_variables
            then dict_set data "environmentVariables" environment_variables
            else data)).

(** A project record whose [repositoryName] is a string that differs from
    [repo] after lower-casing both. *)
Definition other_repository (repo : string) (project : value) : Prop :=
  exists d name,
    project = VDict d
    /\ dict_get d "repositoryName" = Some (VStr name)
    /\ lower name <> lower repo.

(** A project list of one entry, after the example of the source. *)
Definition sample_projects : list value :=
  [VDict [("repositoryName", VStr "FeodorFitsner/demo-app");
          ("accountName", VStr "appvyr");
          ("slug", VStr "demo-app-335")]].

(** The name [_request] looks a handler up under, without the leading
    underscore. *)
Definition verb_name (v : Verb) : string :=
  match v with
  | GET => "get"
  | POST => "post"
  | PUT => "put"
  | DELETE => "delete"
  end.

(** The request a handler puts on the wire: [_get] and [_delete] pass the
    URL alone, [_post] and [_put] pass [data=] and [json=] as well. *)
Definition request_of (c : AppveyorClient) (v : Verb) (path : string)
           (body : option string) (js : option value) : Request :=
  match v with
  | GET | DELETE => mkRequest v (_make_url c path) None None
  | POST | PUT => mkRequest v (_make_url c path) body js
  end.

(** The text of the exception the two-name unpacking raises on three or
    more words. *)
Definition too_many_values : string :=
  "too many values to unpack (expected 2)".

(** What a call that hands [verb path] to the dispatcher comes to: with a
    blank in the path the unpacking fails and nothing is issued, otherwise
    the one request is issued and its response interpreted. *)
Definition dispatched (c : AppveyorClient) (v : Verb) (path : string)
           (body : option string) (js : option value) (w : World)
  : result value * World :=
  if has_char " " path then (inl (ValueError too_many_values), w)
  else (answer c (request_of c v path body js) w,
        (w ++ [request_of c v path body js])%list).

(** [/api/projects/<account_name>/<project_slug>] *)
Definition project_path (account_name project_slug : value) : string :=
  "/api/projects/" ++ str account_name ++ "/" ++ str project_slug.

(** The path and query [Projects.history] asks for. *)
Definition history_path
           (account_name project_slug records_per_page start_build_id
              branch : value) : string :=
  "/api/projects/" ++ str account_name ++ "/" ++ str project_slug
  ++ "/history?recordsNumber=" ++ str records_per_page
  ++ (if truthy start_build_id
      then "&startBuildId=" ++ str start_build_id else EmptyString)
  ++ (if truthy branch then "&branch=" ++ str branch else EmptyString).

(** The path the three update methods of [Projects] share. *)
Definition build_number_path (account_name project_slug : value) : string :=
  "/api/projects/" ++ str account_name ++ "/" ++ str project_slug
  ++ "/settings/build-number".

(** The dict [Deployments.start] serialises. *)
Definition deployment_data
           (account_name project_slug environment_name build_version
              build_job_id environment_variables : value)
  : list (string * value) :=
  ([("environmentName", environment_name);
    ("accountName", account_name);
    ("projectSlug", project_slug);
    ("buildVersion", build_version);
    ("environmentVariables", environment_variables)]
   ++ (if truthy build_job_id then [("buildJobId", build_job_id)] else []))%list.

(** The endpoint the constructor keeps. *)
Definition chosen_endpoint (endpoint : option string) : string :=
  match endpoint with
  | Some e => if e =? EmptyString then default_endpoint else e
  | None => default_endpoint
  end.

(** The message of the [AppveyorError] branch of
    [account_slug_for_repo]; the source's two literals join without a
    blank. *)
Definition invalid_repo_msg (repo_full_name : value) : string :=
  "Repository full name '" ++ str repo_full_name ++ "'is invalid".

(** * Properties *)

(** ** Strings *)

Lemma append_empty_r (s : string) : s ++ EmptyString = s.
Proof.
  induction s as [|ch s IH]; simpl; [reflexivity | now rewrite IH].
Qed.

Lemma has_char_append (ch : ascii) (a b : string) :
  has_char ch (a ++ b) = has_char ch a || has_char ch b.
Proof.
  induction a as [|d a IH]; simpl; [reflexivity|].
  rewrite IH. now rewrite orb_assoc.
Qed.

Lemma split_without_sep (sep : ascii) (s : string) :
  has_char sep s = false -> split sep s = [s].
Proof.
  induction s as [|ch s IH]; simpl; intros H; [reflexivity|].
  apply orb_false_iff in H. destruct H as [Hc Hs].
  rewrite Ascii.eqb_sym, Hc. now rewrite (IH Hs).
Qed.

Lemma split_at_sep (sep : ascii) (a b : string) :
  has_char sep a = false ->
  split sep (a ++ String sep b) = a :: split sep b.
Proof.
  induction a as [|ch a IH]; simpl; intros H.
  - now rewrite Ascii.eqb_refl.
  - apply orb_false_iff in H. destruct H as [Hc Ha].
    rewrite Ascii.eqb_sym, Hc. now rewrite (IH Ha).
Qed.

Lemma split_with_sep (sep : ascii) (s : string) :
  has_char sep s = true -> exists a b t, split sep s = a :: b :: t.
Proof.
  induction s as [|ch s IH]; simpl; intros H; [discriminate|].
  rewrite Ascii.eqb_sym in H.
  destruct (Ascii.eqb ch sep) eqn:E.
  - destruct (split sep s) as [|h t] eqn:Es.
    + destruct s; simpl in Es; [discriminate|].
      destruct (Ascii.eqb a sep); [discriminate|].
      destruct (split sep s); discriminate.
    + now exists EmptyString, h, t.
  - simpl in H. destruct (IH H) as (a & b & t & ->).
    now exists (String ch a), b, t.
Qed.

(** Decimal numerals have no blank in them. *)
Lemma uint_no_blank (d : Decimal.uint) :
  has_char " " (NilEmpty.string_of_uint d) = false.
Proof.
  induction d; simpl; auto.
Qed.

Lemma str_int_no_blank (z : Z) : has_char " " (str_int z) = false.
Proof.
  unfold str_int, NilZero.string_of_int, NilZero.string_of_uint.
  destruct (Z.to_int z) as [d|d]; destruct d; simpl; auto using uint_no_blank.
Qed.

(** ** The four senders and the dispatcher *)

Lemma run_get c path body js w :
  _get c path body js w =
  let rq := mkRequest GET (_make_url c path) None None in
  (answer c rq w, (w ++ [rq])%list).
Proof.
  unfold _get, bind, session_call, lift, answer; simpl.
  now destruct (transport _ _ _).
Qed.

Lemma run_delete c path body js w :
  _delete c path body js w =
  let rq := mkRequest DELETE (_make_url c path) None None in
  (answer c rq w, (w ++ [rq])%list).
Proof.
  unfold _delete, bind, session_call, lift, answer; simpl.
  now destruct (transport _ _ _).
Qed.

Lemma run_post c path body js w :
  _post c path body js w =
  let rq := mkRequest POST (_make_url c path) body js in
  (answer c rq w, (w ++ [rq])%list).
Proof.
  unfold _post, bind, session_call, lift, answer; simpl.
  now destruct (transport _ _ _).
Qed.

Lemma request_get c path body js :
  has_char " " path = false ->
  _request c ("GET " ++ path) body js = _get c path body js.
Proof.
  intros H. unfold _request.
  change ("GET " ++ path) with ("GET" ++ String " " path).
  rewrite split_at_sep by reflexivity.
  now rewrite (split_without_sep _ _ H).
Qed.

Lemma request_delete c path body js :
  has_char " " path = false ->
  _request c ("DELETE " ++ path) body js = _delete c path body js.
Proof.
  intros H. unfold _request.
  change ("DELETE " ++ path) with ("DELETE" ++ String " " path).
  rewrite split_at_sep by reflexivity.
  now rewrite (split_without_sep _ _ H).
Qed.

Lemma request_post c path body js :
  has_char " " path = false ->
  _request c ("POST " ++ path) body js = _post c path body js.
Proof.
  intros H. unfold _request.
  change ("POST " ++ path) with ("POST" ++ String " " path).
  rewrite split_at_sep by reflexivity.
  now rewrite (split_without_sep _ _ H).
Qed.

(** A blank inside the path makes the unpacking fail before any handler
    is looked up. *)
Lemma request_blank_in_path c verb path body js w :
  has_char " " verb = false ->
  has_char " " path = true ->
  _request c (verb ++ String " " path) body js w =
  (inl (ValueError "too many values to unpack (expected 2)"), w).
Proof.
  intros Hv Hp. unfold _request.
  rewrite (split_at_sep _ _ _ Hv).
  destruct (split_with_sep _ _ Hp) as (a & b & t & ->).
  reflexivity.
Qed.

(** ** The response interpreter *)

(** Any status other than 200 and 204 takes the last branch: the record is
    the empty dict of the [try] block with the status stored in it. *)
Lemma parse_other_status (r : Response) :
  status_code r <> 200 -> status_code r <> 204 ->
  _parse_response_contents r =
  inl (AppveyorError (VDict [("status_code", VInt (status_code r))])).
Proof.
  intros H200 H204. unfold _parse_response_contents.
  apply Z.eqb_neq in H200. apply Z.eqb_neq in H204.
  now rewrite H200, H204.
Qed.

(** C1.  The claim asks that the failure record of a response that is
    neither 200 nor 204 carries a message: the trimmed body text, or the
    generic diagnostic when that text is empty.  The code builds such a
    message only in the handler of a failed decode, which a status other
    than 200 never enters.  At a 404 with text [Not found] and at a 500
    with an empty text the raised record holds the status code alone:
    reading its [error] entry is a [KeyError]. *)
Theorem parse_failure_record_lacks_message :
  (exists contents,
      _parse_response_contents (mkResponse 404 " Not found " None)
      = inl (AppveyorError contents)
      /\ contents = VDict [("status_code", VInt 404)]
      /\ getitem contents "error" = inl (KeyError "error"))
  /\ (exists contents,
         _parse_response_contents (mkResponse 500 EmptyString None)
         = inl (AppveyorError contents)
         /\ contents = VDict [("status_code", VInt 500)]
         /\ getitem contents "error" = inl (KeyError "error")).
Proof.
  split; eexists; repeat split; reflexivity.
Qed.

(** The handler itself: with a 200 whose body does not decode, an empty
    trimmed text gives the generic diagnostic, and a non-empty one reads
    [error_msg] before any assignment. *)
Lemma parse_undecodable_200 (r : Response) :
  status_code r = 200 -> json r = None ->
  _parse_response_contents r =
  if strip (text r) =? EmptyString
  then inl (AppveyorError
              (VDict [("status_code", VInt 200);
                      ("error", VStr unexpected_error_text)]))
  else inl (UnboundLocalError "error_msg").
Proof.
  intros Hs Hj. unfold _parse_response_contents.
  rewrite Hs, Hj. simpl.
  now destruct (strip (text r) =? EmptyString).
Qed.

Lemma parse_undecodable_200_witness :
  _parse_response_contents (mkResponse 200 "<html>Bad gateway</html>" None)
  = inl (UnboundLocalError "error_msg")
  /\ _parse_response_contents (mkResponse 200 "   " None)
     = inl (AppveyorError
              (VDict [("status_code", VInt 200);
                      ("error", VStr unexpected_error_text)])).
Proof.
  split.
  - apply (parse_undecodable_200
             (mkResponse 200 "<html>Bad gateway</html>" None)); reflexivity.
  - apply (parse_undecodable_200 (mkResponse 200 "   " None)); reflexivity.
Defined.

(** C5.  For every response whose status code is neither 200 nor 204 the
    interpreter raises [AppveyorError] (it returns no value), and the
    record it raises has the response's status code under
    [status_code]. *)
Theorem parse_failure_carries_status (r : Response) :
  status_code r <> 200 -> status_code r <> 204 ->
  exists contents,
    _parse_response_contents r = inl (AppveyorError contents)
    /\ getitem contents "status_code" = inr (VInt (status_code r)).
Proof.
  intros H200 H204. eexists. split.
  - now apply parse_other_status.
  - reflexivity.
Qed.

Lemma parse_failure_carries_status_witness :
  exists contents,
    _parse_response_contents (mkResponse 403 "Forbidden" None)
    = inl (AppveyorError contents)
    /\ getitem contents "status_code" = inr (VInt 403).
Proof.
  apply (parse_failure_carries_status (mkResponse 403 "Forbidden" None));
    simpl; lia.
Defined.

(** C6.  For every response with status code 200 whose body decodes to a
    value [V], the interpreter returns [V] and raises nothing. *)
Theorem parse_200_returns_decoded (r : Response) (V : value) :
  status_code r = 200 -> json r = Some V ->
  _parse_response_contents r = inr V.
Proof.
  intros Hs Hj. unfold _parse_response_contents. now rewrite Hs, Hj.
Qed.

Lemma parse_200_returns_decoded_witness :
  _parse_response_contents
    (mkResponse 200 "[1, 2]" (Some (VList [VInt 1; VInt 2])))
  = inr (VList [VInt 1; VInt 2]).
Proof.
  apply (parse_200_returns_decoded
           (mkResponse 200 "[1, 2]" (Some (VList [VInt 1; VInt 2]))));
    reflexivity.
Defined.

(** C7.  For every response with status code 204 the interpreter returns
    [None] and raises nothing, whatever the body text is and whether or
    not the body would decode: the result is stated for every [text] and
    every [json] outcome, the failing decode included. *)
Theorem parse_204_returns_none (r : Response) :
  status_code r = 204 ->
  _parse_response_contents r = inr VNone.
Proof.
  intros Hs. unfold _parse_response_contents. now rewrite Hs.
Qed.

Lemma parse_204_returns_none_witness :
  _parse_response_contents (mkResponse 204 "not json at all" None)
  = inr VNone.
Proof.
  apply (parse_204_returns_none (mkResponse 204 "not json at all" None)).
  reflexivity.
Defined.

(** ** Roles and collaborators *)

(** C3.  The claim asks that [Roles.delete_role(role_id)] sends a DELETE
    to [/api/roles/<id>] with the given id in the path.  The code never
    formats its template: for every [role_id] the one request issued is a
    DELETE whose path is the literal text [/api/roles/{role_id}], the same
    for all ids. *)
Theorem delete_role_sends_unformatted_template
        (c : AppveyorClient) (role_id : value) (w : World) :
  issued (Roles.delete_role c role_id) w
  = (w ++ [mkRequest DELETE (_make_url c "/api/roles/{role_id}") None None])%list.
Proof.
  unfold issued, Roles.delete_role.
  change "DELETE /api/roles/{role_id}" with ("DELETE " ++ "/api/roles/{role_id}").
  rewrite request_delete by reflexivity.
  now rewrite run_delete.
Qed.

(** [Roles.get] appends the template suffix for a truthy id and does not
    format it either: the path ends in the literal [{role_id}]. *)
Lemma roles_get_sends_unformatted_template
      (c : AppveyorClient) (role_id : value) (w : World) :
  issued (Roles.get c role_id) w
  = (w ++ [mkRequest GET
             (_make_url c (if truthy role_id then "/api/roles/{role_id}"
                           else "/api/roles"))
             None None])%list.
Proof.
  unfold issued, Roles.get.
  destruct (truthy role_id).
  - change ("GET /api/roles" ++ "/{role_id}")
      with ("GET " ++ "/api/roles/{role_id}").
    rewrite request_get by reflexivity. now rewrite run_get.
  - change "GET /api/roles" with ("GET " ++ "/api/roles").
    rewrite request_get by reflexivity. now rewrite run_get.
Qed.

(** The sibling [Users.delete] formats its template: the id is in the
    path. *)
Lemma users_delete_sends_id (c : AppveyorClient) (user_id : value) (w : World) :
  has_char " " (str user_id) = false ->
  issued (Users.delete c user_id) w
  = (w ++ [mkRequest DELETE (_make_url c ("/api/users/" ++ str user_id))
             None None])%list.
Proof.
  intros H. unfold issued, Users.delete, bind, lift, format. simpl.
  rewrite append_empty_r.
  change (String "D" ?x) with ("DELETE " ++ "/api/users/" ++ str user_id).
  rewrite request_delete by exact H.
  now rewrite run_delete.
Qed.

(** C9.  Every request [Collaborators.get] issues is a DELETE on
    [/api/users], with [/<user_id>] appended when the id is given (a
    truthy value); it is no GET and names no collaborators path.  The
    request goes out for every id whose text has no blank, which includes
    the absent id and every integer; an id whose text has a blank makes
    the dispatcher's unpacking fail and nothing is issued. *)
Theorem collaborators_get_sends_delete_on_users
        (c : AppveyorClient) (user_id : value) (w : World) :
  issued (Collaborators.get c user_id) w
  = (if has_char " " (collaborators_get_path user_id) then w
     else w ++ [mkRequest DELETE
                  (_make_url c (collaborators_get_path user_id)) None None])%list
  /\ has_char " " (collaborators_get_path VNone) = false
  /\ (forall n : Z, has_char " " (collaborators_get_path (VInt n)) = false).
Proof.
  split; [|split].
  - unfold issued, Collaborators.get, collaborators_get_path, bind, lift, format.
    destruct (truthy user_id) eqn:Ht.
    + simpl. rewrite append_empty_r.
      destruct (has_char " " (str user_id)) eqn:Hb.
      * change (String "D" ?x)
          with ("DELETE" ++ String " " ("/api/users/" ++ str user_id)).
        rewrite request_blank_in_path; [reflexivity | reflexivity |].
        change ("/api/users/" ++ str user_id)
          with ("/api/users" ++ ("/" ++ str user_id)).
        rewrite has_char_append. simpl. exact Hb.
      * change (String "D" ?x)
          with ("DELETE " ++ ("/api/users/" ++ str user_id)).
        rewrite request_delete, run_delete; [reflexivity|].
        change ("/api/users/" ++ str user_id)
          with ("/api/users" ++ ("/" ++ str user_id)).
        rewrite has_char_append. simpl. exact Hb.
    + simpl.
      change "DELETE /api/users" with ("DELETE " ++ "/api/users").
      rewrite request_delete by reflexivity.
      now rewrite run_delete.
  - reflexivity.
  - intros n. unfold collaborators_get_path.
    destruct (truthy (VInt n)); [|reflexivity].
    rewrite has_char_append. simpl. apply str_int_no_blank.
Qed.

(** ** Builds *)

(** A branch alone is accepted and sent under [branch].  The tests are
    on truth values: [None], an empty string and zero all count as
    absent. *)
Lemma start_branch_only
      c account_name project_slug branch number commit env w :
  truthy branch = true -> truthy number = false -> truthy commit = false ->
  issued (Builds.start c account_name project_slug branch number commit env) w
  = (w ++ [mkRequest POST (_make_url c "/api/builds")
             (Some (start_body account_name project_slug "branch" branch env))
             None])%list.
Proof.
  intros Hb Hn Hc.
  unfold issued, Builds.start, bind, start_body. rewrite Hb, Hn, Hc. simpl.
  change "POST /api/builds" with ("POST " ++ "/api/builds").
  rewrite request_post by reflexivity.
  now rewrite run_post.
Qed.

Lemma start_branch_only_witness :
  issued (Builds.start (sample_client (mkResponse 200 "{}" (Some (VDict []))))
                       (VStr "acct") (VStr "proj") (VStr "master")
                       VNone VNone (VDict [])) []
  = [mkRequest POST "https://ci.appveyor.com//api/builds"
       (Some (start_body (VStr "acct") (VStr "proj") "branch"
                         (VStr "master") (VDict [])))
       None].
Proof.
  apply (start_branch_only
           (sample_client (mkResponse 200 "{}" (Some (VDict []))))
           (VStr "acct") (VStr "proj") (VStr "master") VNone VNone
           (VDict []) []); reflexivity.
Defined.

(** A pull request number alone is accepted and sent under
    [pullRequestId]. *)
Lemma start_pull_request_only
      c account_name project_slug branch number commit env w :
  truthy number = true -> truthy branch = false -> truthy commit = false ->
  issued (Builds.start c account_name project_slug branch number commit env) w
  = (w ++ [mkRequest POST (_make_url c "/api/builds")
             (Some (start_body account_name project_slug
                               "pullRequestId" number env))
             None])%list.
Proof.
  intros Hn Hb Hc.
  unfold issued, Builds.start, bind, start_body. rewrite Hb, Hn, Hc. simpl.
  change "POST /api/builds" with ("POST " ++ "/api/builds").
  rewrite request_post by reflexivity.
  now rewrite run_post.
Qed.

Lemma start_pull_request_only_witness :
  issued (Builds.start (sample_client (mkResponse 200 "{}" (Some (VDict []))))
                       (VStr "acct") (VStr "proj") VNone (VInt 7) VNone
                       (VDict [])) []
  = [mkRequest POST "https://ci.appveyor.com//api/builds"
       (Some (start_body (VStr "acct") (VStr "proj") "pullRequestId"
                         (VInt 7) (VDict [])))
       None].
Proof.
  apply (start_pull_request_only
           (sample_client (mkResponse 200 "{}" (Some (VDict []))))
           (VStr "acct") (VStr "proj") VNone (VInt 7) VNone
           (VDict []) []); reflexivity.
Defined.

(** An empty branch name beside a pull request number is read as no
    branch: the request for the pull request goes out. *)
Example start_empty_branch_is_absent :
  Builds.start (sample_client (mkResponse 200 "{}" (Some (VDict []))))
               (VStr "acct") (VStr "proj") (VStr EmptyString) (VInt 7) VNone
               (VDict []) []
  = (inr (VDict []),
     [mkRequest POST "https://ci.appveyor.com//api/builds"
        (Some (json_dumps (VDict [("accountName", VStr "acct");
                                  ("projectSlug", VStr "proj");
                                  ("pullRequestId", VInt 7)])))
        None]).
Proof. reflexivity. Qed.

(** C2.  The claim asks that a call with exactly one of branch, commit
    and pull request number is accepted and sends the matching field,
    a lone commit sending [commitId].  The test of the commit case is
    [commit and not commit ...], which no value passes: for every commit,
    with branch and pull request number absent, the call raises the usage
    error and issues no request. *)
Theorem start_commit_only_is_refused
        (c : AppveyorClient)
        (account_name project_slug commit environment_variables : value)
        (w : World) :
  Builds.start c account_name project_slug VNone VNone commit
               environment_variables w
  = (inl (AppveyorClientError Builds.start_error_msg), w).
Proof.
  unfold Builds.start, bind, raise. simpl.
  now destruct (truthy commit).
Qed.

(** C4.  For every call of [Builds.start] that gives both a branch and a
    pull request number (both values the code's tests take as present,
    that is truthy), whatever the commit, the usage error
    [AppveyorClientError] is raised and the list of issued requests is
    unchanged. *)
Theorem start_branch_and_pull_request_is_refused
        (c : AppveyorClient)
        (account_name project_slug branch pull_request_number commit
           environment_variables : value)
        (w : World) :
  truthy branch = true -> truthy pull_request_number = true ->
  Builds.start c account_name project_slug branch pull_request_number commit
               environment_variables w
  = (inl (AppveyorClientError Builds.start_error_msg), w).
Proof.
  intros Hb Hp. unfold Builds.start, bind, raise. rewrite Hb, Hp. simpl.
  now destruct (truthy commit).
Qed.

Lemma start_branch_and_pull_request_is_refused_witness :
  Builds.start (sample_client (mkResponse 200 "{}" (Some (VDict []))))
               (VStr "acct") (VStr "proj") (VStr "master") (VInt 7)
               VNone (VDict []) []
  = (inl (AppveyorClientError Builds.start_error_msg), []).
Proof.
  apply (start_branch_and_pull_request_is_refused
           (sample_client (mkResponse 200 "{}" (Some (VDict []))))
           (VStr "acct") (VStr "proj") (VStr "master") (VInt 7)
           VNone (VDict []) []); reflexivity.
Defined.

(** ** Projects *)

Lemma in_providers_spec (v : value) :
  Projects.in_providers v = true
  <-> exists s, v = VStr s /\ In s Projects.providers.
Proof.
  split.
  - destruct v; unfold Projects.in_providers; try discriminate.
    intros H. apply existsb_exists in H. destruct H as (p & Hin & Heq).
    apply String.eqb_eq in Heq. subst p. now exists s.
  - intros (s & -> & Hin). unfold Projects.in_providers.
    apply existsb_exists.
    exists s. split; [exact Hin | apply String.eqb_refl].
Qed.

(** C8.  For every call of [Projects.add]: when the provider is not one
    of the nine names, [AppveyorClientError] is raised with a message that
    contains each of the nine names, and no request is issued; when it is
    one of them, one POST to [/api/projects] is issued whose body is the
    serialised dict with [repositoryProvider] and [repositoryName]. *)
Theorem projects_add_checks_provider
        (c : AppveyorClient) (repository_provider repository_name : value)
        (w : World) :
  (if Projects.in_providers repository_provider
   then
     issued (Projects.add c repository_provider repository_name) w
     = (w ++ [mkRequest POST (_make_url c "/api/projects")
                (Some (json_dumps
                         (VDict [("repositoryProvider", repository_provider);
                                 ("repositoryName", repository_name)])))
                None])%list
   else
     Projects.add c repository_provider repository_name w
     = (inl (AppveyorClientError Projects.invalid_provider_msg), w))
  /\ (Projects.in_providers repository_provider = true
      <-> exists s, repository_provider = VStr s
                    /\ In s ["gitHub"; "bitBucket"; "vso"; "gitLab"; "kiln";
                             "stash"; "git"; "mercurial"; "subversion"])
  /\ forallb (fun p => contains p Projects.invalid_provider_msg)
             ["gitHub"; "bitBucket"; "vso"; "gitLab"; "kiln";
              "stash"; "git"; "mercurial"; "subversion"] = true.
Proof.
  split; [|split].
  - unfold issued, Projects.add.
    destruct (Projects.in_providers repository_provider); simpl.
    + change "POST /api/projects" with ("POST " ++ "/api/projects").
      rewrite request_post by reflexivity.
      now rewrite run_post.
    + reflexivity.
  - apply in_providers_spec.
  - vm_compute. reflexivity.
Qed.

(** ** Looking a repository up *)

(** Without a match the loop ends with both locals unbound. *)
Lemma scan_projects_without_match (repo : string) (projects : list value) :
  Forall (other_repository repo) projects ->
  scan_projects projects (VStr repo) = inr (None, None).
Proof.
  induction 1 as [|project rest (d & name & -> & Hget & Hne) _ IH]; simpl.
  - reflexivity.
  - rewrite Hget. simpl.
    destruct (lower name =? lower repo) eqn:E.
    + apply String.eqb_eq in E. contradiction.
    + exact IH.
Qed.

(** [Projects.get] issues one GET on [/api/projects] and returns what
    the interpreter makes of the response. *)
Lemma projects_get_run (c : AppveyorClient) (w : World) :
  Projects.get c w
  = let rq := mkRequest GET (_make_url c "/api/projects") None None in
    (answer c rq w, (w ++ [rq])%list).
Proof.
  unfold Projects.get.
  change "GET /api/projects" with ("GET " ++ "/api/projects").
  rewrite request_get by reflexivity.
  now rewrite run_get.
Qed.

(** C10.  Whenever the project list was fetched and no project in it has
    a [repositoryName] equal to the given full name up to letter case,
    [account_slug_for_repo] neither raises its [AppveyorError] nor
    returns: the test after the loop reads [account_name], which no
    statement has assigned, and the call ends in the unbound-local
    error. *)
Theorem account_slug_for_repo_unbound_local
        (c : AppveyorClient) (repo : string) (projects : list value)
        (w w' : World) :
  Projects.get c w = (inr (VList projects), w') ->
  Forall (other_repository repo) projects ->
  account_slug_for_repo c (VStr repo) w
  = (inl (UnboundLocalError "account_name"), w').
Proof.
  intros Hget Hall. unfold account_slug_for_repo, bind.
  rewrite Hget. simpl.
  now rewrite (scan_projects_without_match repo projects Hall).
Qed.

Lemma account_slug_for_repo_unbound_local_witness :
  account_slug_for_repo
    (sample_client (mkResponse 200 "[...]" (Some (VList sample_projects))))
    (VStr "someone/else") []
  = (inl (UnboundLocalError "account_name"),
     [mkRequest GET "https://ci.appveyor.com//api/projects" None None]).
Proof.
  apply (account_slug_for_repo_unbound_local
           (sample_client (mkResponse 200 "[...]" (Some (VList sample_projects))))
           "someone/else" sample_projects []).
  - reflexivity.
  - repeat constructor.
    exists [("repositoryName", VStr "FeodorFitsner/demo-app");
            ("accountName", VStr "appvyr");
            ("slug", VStr "demo-app-335")], "FeodorFitsner/demo-app".
    repeat split; simpl; discriminate.
Defined.

(** * Further properties *)

(** ** The interpreter as a whole *)

(** The interpreter returns a value in two cases only: status 204, where
    the value is [None], and status 200 with a body that decodes, where it
    is the decoded value.  Every other response ends in an exception. *)
Theorem parse_returns_iff (r : Response) (v : value) :
  _parse_response_contents r = inr v
  <-> (status_code r = 204 /\ v = VNone)
      \/ (status_code r = 200 /\ json r = Some v).
Proof.
  unfold _parse_response_contents. split.
  - destruct (status_code r =? 200)%Z eqn:E200.
    + apply Z.eqb_eq in E200. destruct (json r) as [x|].
      * intros H. right. split; [exact E200 | congruence].
      * destruct (negb _); discriminate.
    + simpl. destruct (status_code r =? 204)%Z eqn:E204.
      * apply Z.eqb_eq in E204. intros H. left. split; congruence.
      * discriminate.
  - intros [[H ->] | [H Hj]]; rewrite H; simpl; [reflexivity|].
    now rewrite Hj.
Qed.

(** ** The dispatcher *)

Lemma run_put c path body js w :
  _put c path body js w =
  let rq := mkRequest PUT (_make_url c path) body js in
  (answer c rq w, (w ++ [rq])%list).
Proof.
  unfold _put, bind, session_call, lift, answer; simpl.
  now destruct (transport _ _ _).
Qed.

(** One call of [_request] never issues more than one request, and that
    request goes to the endpoint followed by the second word of
    [method_url].  A GET or DELETE carries neither [data] nor [json]
    whatever the caller passed; a POST or PUT carries both as given. *)
Theorem request_issues_at_most_one
        (c : AppveyorClient) (method_url : string)
        (body : option string) (js : option value) (w : World) :
  issued (_request c method_url body js) w = w
  \/ exists verb path rq,
      split " " method_url = [verb; path]
      /\ issued (_request c method_url body js) w = (w ++ [rq])%list
      /\ req_url rq = _make_url c path
      /\ (req_verb rq = GET \/ req_verb rq = DELETE ->
          req_data rq = None /\ req_json rq = None)
      /\ (req_verb rq = POST \/ req_verb rq = PUT ->
          req_data rq = body /\ req_json rq = js).
Proof.
  unfold issued, _request.
  destruct (split " " method_url) as [|verb [|path [|x t]]];
    try (left; reflexivity).
  destruct ("_" ++ lower verb =? "_get") eqn:Eg;
    [|destruct ("_" ++ lower verb =? "_post") eqn:Ep;
      [|destruct ("_" ++ lower verb =? "_put") eqn:Eu;
        [|destruct ("_" ++ lower verb =? "_delete") eqn:Ed;
          [|left; reflexivity]]]];
    right; exists verb, path; eexists;
    (split; [reflexivity|]);
    rewrite ?run_get, ?run_post, ?run_put, ?run_delete; simpl;
    (split; [reflexivity|]); (split; [reflexivity|]);
    split; intros [H|H]; try discriminate H; split; reflexivity.
Qed.

(** The verb is looked up in lower case: any spelling of one of the four
    verbs, followed by one blank and a path without blanks, runs the
    matching handler once and returns what the interpreter makes of the
    response. *)
Theorem request_dispatches_by_lowercase_verb
        (c : AppveyorClient) (v : Verb) (verb path : string)
        (body : option string) (js : option value) (w : World) :
  lower verb = verb_name v ->
  has_char " " verb = false ->
  has_char " " path = false ->
  _request c (verb ++ String " " path) body js w
  = (answer c (request_of c v path body js) w,
     (w ++ [request_of c v path body js])%list).
Proof.
  intros Hl Hv Hp. unfold _request.
  rewrite (split_at_sep _ _ _ Hv), (split_without_sep _ _ Hp), Hl.
  destruct v; simpl;
    rewrite ?run_get, ?run_post, ?run_put, ?run_delete; reflexivity.
Qed.

Lemma request_dispatches_by_lowercase_verb_witness :
  _request (sample_client (mkResponse 204 EmptyString None))
           "Delete /api/users/12" None None []
  = (inr VNone,
     [mkRequest DELETE "https://ci.appveyor.com//api/users/12" None None]).
Proof.
  apply (request_dispatches_by_lowercase_verb
           (sample_client (mkResponse 204 EmptyString None))
           DELETE "Delete" "/api/users/12" None None []); reflexivity.
Defined.


(** ** Users *)

(** [Users.add] and passwords.  When [generate_password] is truthy the
    request carries no password, even if one was given.  Otherwise a
    truthy password is sent twice, as [password] and [confirmPassword];
    and without one the usage error is raised and nothing is issued. *)
Theorem users_add_password_policy
        (c : AppveyorClient)
        (full_name email role_id password generate_password : value)
        (w : World) :
  let base := [("fullName", full_name); ("email", email);
               ("roleId", role_id);
               ("generatePassword", generate_password)] in
  if truthy generate_password then
    issued (Users.add c full_name email role_id password generate_password) w
    = (w ++ [mkRequest POST (_make_url c "/api/users")
               (Some (json_dumps (VDict base))) None])%list
  else if truthy password then
    issued (Users.add c full_name email role_id password generate_password) w
    = (w ++ [mkRequest POST (_make_url c "/api/users")
               (Some (json_dumps
                        (VDict (base ++ [("password", password);
                                         ("confirmPassword", password)])%list)))
               None])%list
  else
    Users.add c full_name email role_id password generate_password w
    = (inl (AppveyorClientError
              "Must provide a password if generate is Fasle"), w).
Proof.
  unfold issued, Users.add, bind.
  destruct (truthy generate_password); simpl.
  - change "POST /api/users" with ("POST " ++ "/api/users").
    rewrite request_post by reflexivity. now rewrite run_post.
  - destruct (truthy password); simpl; [|reflexivity].
    change "POST /api/users" with ("POST " ++ "/api/users").
    rewrite request_post by reflexivity. now rewrite run_post.
Qed.

(** ** Formatted paths *)

Lemma request_run c (v : Verb) (verb path : string) body js w :
  lower verb = verb_name v ->
  has_char " " verb = false ->
  _request c (verb ++ String " " path) body js w
  = dispatched c v path body js w.
Proof.
  intros Hl Hv. unfold dispatched.
  destruct (has_char " " path) eqn:Hp.
  - now apply request_blank_in_path.
  - unfold _request.
    rewrite (split_at_sep _ _ _ Hv), (split_without_sep _ _ Hp), Hl.
    destruct v; simpl;
      rewrite ?run_get, ?run_post, ?run_put, ?run_delete; reflexivity.
Qed.

Ltac as_verb_and_path :=
  match goal with
  | |- context [_request _ (String "G" (String "E" (String "T"
                              (String " " ?p)))) _ _] =>
      change (String "G" (String "E" (String "T" (String " " p))))
        with ("GET" ++ String " " p);
      rewrite (request_run _ GET "GET" p) by reflexivity
  | |- context [_request _ (String "P" (String "U" (String "T"
                              (String " " ?p)))) _ _] =>
      change (String "P" (String "U" (String "T" (String " " p))))
        with ("PUT" ++ String " " p);
      rewrite (request_run _ PUT "PUT" p) by reflexivity
  | |- context [_request _ (String "P" (String "O" (String "S" (String "T"
                              (String " " ?p))))) _ _] =>
      change (String "P" (String "O" (String "S" (String "T" (String " " p)))))
        with ("POST" ++ String " " p);
      rewrite (request_run _ POST "POST" p) by reflexivity
  | |- context [_request _ (String "D" (String "E" (String "L" (String "E"
                 (String "T" (String "E" (String " " ?p))))))) _ _] =>
      change (String "D" (String "E" (String "L" (String "E"
                 (String "T" (String "E" (String " " p)))))))
        with ("DELETE" ++ String " " p);
      rewrite (request_run _ DELETE "DELETE" p) by reflexivity
  end.

(** Runs the [format] call of a method on its literal template and hands
    the verb and the path to [request_run]. *)
Ltac method_run :=
  unfold bind, lift, format; simpl; rewrite ?append_empty_r;
  as_verb_and_path; reflexivity.

(** [Projects.history] asks for
    [/api/projects/<account>/<slug>/history?recordsNumber=<n>], followed
    by [&startBuildId=<id>] when a start id is given and by
    [&branch=<b>] when a branch is given, in that order; an absent one
    leaves no trace in the query.  A blank anywhere in it makes the call
    fail before anything is sent. *)
Theorem projects_history_query
        (c : AppveyorClient)
        (account_name project_slug records_per_page start_build_id
           branch : value) (w : World) :
  Projects.history c account_name project_slug records_per_page
                   start_build_id branch w
  = dispatched c GET
      (history_path account_name project_slug records_per_page
                    start_build_id branch) None None w.
Proof.
  unfold Projects.history, history_path.
  destruct (truthy start_build_id), (truthy branch); method_run.
Qed.

(** *** Each method as one dispatched call *)

Section Runs.

Variable c : AppveyorClient.
Variable w : World.

Lemma users_get_run user_id :
  Users.get c user_id w
  = dispatched c GET
      ("/api/users" ++ (if truthy user_id then "/" ++ str user_id
                        else EmptyString)) None None w.
Proof. unfold Users.get. destruct (truthy user_id); method_run. Qed.

Lemma users_update_run user :
  Users.update c user w
  = dispatched c PUT "/api/users" (Some (json_dumps user)) None w.
Proof. unfold Users.update. method_run. Qed.

Lemma users_delete_run user_id :
  Users.delete c user_id w
  = dispatched c DELETE ("/api/users/" ++ str user_id) None None w.
Proof. unfold Users.delete. method_run. Qed.

Lemma collaborators_add_run email role_id :
  Collaborators.add c email role_id w
  = dispatched c POST "/api/collaborators"
      (Some (json_dumps (VDict [("email", email); ("roleId", role_id)])))
      None w.
Proof. unfold Collaborators.add. method_run. Qed.

Lemma collaborators_update_run user_id role_id :
  Collaborators.update c user_id role_id w
  = dispatched c PUT "/api/collaborators"
      (Some (json_dumps (VDict [("userId", user_id); ("roleId", role_id)])))
      None w.
Proof. unfold Collaborators.update. method_run. Qed.

Lemma collaborators_delete_run user_id :
  Collaborators.delete c user_id w
  = dispatched c DELETE ("/api/collaborators/" ++ str user_id) None None w.
Proof. unfold Collaborators.delete. method_run. Qed.

Lemma roles_add_role_run name :
  Roles.add_role c name w
  = dispatched c POST "/api/roles"
      (Some (json_dumps (VDict [("name", name)]))) None w.
Proof. unfold Roles.add_role. method_run. Qed.

Lemma roles_update_role_run role :
  Roles.update_role c role w
  = dispatched c PUT "/api/roles" (Some (json_dumps role)) None w.
Proof. unfold Roles.update_role. method_run. Qed.

Lemma last_build_run a s :
  Projects.last_build c a s w
  = dispatched c GET (project_path a s) None None w.
Proof. unfold Projects.last_build, project_path. method_run. Qed.

Lemma last_branch_build_run a s b :
  Projects.last_branch_build c a s b w
  = dispatched c GET
      ("/api/projects/" ++ str a ++ "/" ++ str s ++ "/branch/" ++ str b)
      None None w.
Proof. unfold Projects.last_branch_build. method_run. Qed.

Lemma build_run a s v :
  Projects.build c a s v w
  = dispatched c GET
      ("/api/projects/" ++ str a ++ "/" ++ str s ++ "/build/" ++ str v)
      None None w.
Proof. unfold Projects.build. method_run. Qed.

Lemma project_deployments_run a s :
  Projects.deployments c a s w
  = dispatched c GET
      ("/api/projects/" ++ str a ++ "/" ++ str s ++ "/deployments")
      None None w.
Proof. unfold Projects.deployments. method_run. Qed.

Lemma project_settings_run a s :
  Projects.settings c a s w
  = dispatched c GET
      ("/api/projects/" ++ str a ++ "/" ++ str s ++ "/settings/yaml")
      None None w.
Proof. unfold Projects.settings. method_run. Qed.

Lemma project_update_run a s project :
  Projects.update c a s project w
  = dispatched c PUT (build_number_path a s)
      (Some (json_dumps project)) None w.
Proof. unfold Projects.update, build_number_path. method_run. Qed.

Lemma project_update_settings_run a s settings :
  Projects.update_settings c a s settings w
  = dispatched c PUT (build_number_path a s)
      (Some (json_dumps settings)) None w.
Proof. unfold Projects.update_settings, build_number_path. method_run. Qed.

Lemma project_update_build_number_run a s n :
  Projects.update_build_number c a s n w
  = dispatched c PUT (build_number_path a s)
      None (Some (VDict [("nextBuildNumber", n)])) w.
Proof. unfold Projects.update_build_number, build_number_path. method_run. Qed.

Lemma project_delete_build_cache_run a s :
  Projects.delete_build_cache c a s w
  = dispatched c DELETE
      ("/api/projects/" ++ str a ++ "/" ++ str s ++ "/buildcache")
      None None w.
Proof. unfold Projects.delete_build_cache. method_run. Qed.

Lemma project_delete_run a s :
  Projects.delete c a s w
  = dispatched c DELETE (project_path a s) None None w.
Proof. unfold Projects.delete, project_path. method_run. Qed.

Lemma builds_cancel_run a s v :
  Builds.cancel c a s v w
  = dispatched c DELETE
      ("/api/builds/" ++ str a ++ "/" ++ str s ++ "/" ++ str v)
      None None w.
Proof. unfold Builds.cancel. method_run. Qed.

Lemma builds_log_run job_id :
  Builds.log c job_id w
  = dispatched c GET ("/api/buildjobs/" ++ str job_id ++ "/log") None None w.
Proof. unfold Builds.log. method_run. Qed.

Lemma environments_get_run :
  Environments.get c w = dispatched c GET "/api/environments" None None w.
Proof. unfold Environments.get. method_run. Qed.

Lemma environments_settings_run id :
  Environments.settings c id w
  = dispatched c GET ("/api/environments/" ++ str id ++ "/settings")
      None None w.
Proof. unfold Environments.settings. method_run. Qed.

Lemma environments_deployments_run id :
  Environments.deployments c id w
  = dispatched c GET ("/api/environments/" ++ str id ++ "/deployments")
      None None w.
Proof. unfold Environments.deployments. method_run. Qed.

Lemma environments_add_run environment :
  Environments.add c environment w
  = dispatched c POST "/api/environments"
      (Some (json_dumps environment)) None w.
Proof. unfold Environments.add. method_run. Qed.

Lemma environments_update_run environment :
  Environments.update c environment w
  = dispatched c PUT "/api/environments"
      (Some (json_dumps environment)) None w.
Proof. unfold Environments.update. method_run. Qed.

Lemma environments_delete_run id :
  Environments.delete c id w
  = dispatched c DELETE ("/api/environments/" ++ str id) None None w.
Proof. unfold Environments.delete. method_run. Qed.

Lemma deployments_get_run id :
  Deployments.get c id w
  = dispatched c GET ("/api/deployments/" ++ str id) None None w.
Proof. unfold Deployments.get. method_run. Qed.

Lemma deployments_start_run a s env_name version job env :
  Deployments.start c a s env_name version job env w
  = dispatched c POST "/api/deployments"
      (Some (json_dumps (VDict (deployment_data a s env_name version job env))))
      None w.
Proof.
  unfold Deployments.start, deployment_data.
  destruct (truthy job); method_run.
Qed.

Lemma deployments_cancel_run id :
  Deployments.cancel c id w
  = dispatched c PUT "/api/deployments/stop"
      (Some (json_dumps (VDict [("deploymentId", id)]))) None w.
Proof. unfold Deployments.cancel. method_run. Qed.

End Runs.

(** ** Looking a repository up, continued *)

Lemma scan_projects_first_match
      (repo name : string) (before after : list value)
      (d : list (string * value)) :
  Forall (other_repository repo) before ->
  dict_get d "repositoryName" = Some (VStr name) ->
  lower name = lower repo ->
  scan_projects (before ++ VDict d :: after)%list (VStr repo)
  = match dict_get d "accountName" with
    | None => inl (KeyError "accountName")
    | Some a =>
        match dict_get d "slug" with
        | None => inl (KeyError "slug")
        | Some s => inr (Some a, Some s)
        end
    end.
Proof.
  intros Hall Hname Heq.
  induction Hall as [|project rest (d0 & n0 & -> & Hget & Hne) _ IH]; simpl.
  - rewrite Hname. simpl. rewrite Heq, String.eqb_refl.
    destruct (dict_get d "accountName"); [|reflexivity].
    now destruct (dict_get d "slug").
  - rewrite Hget. simpl.
    destruct (lower n0 =? lower repo) eqn:E; [|exact IH].
    apply String.eqb_eq in E. contradiction.
Qed.

Lemma scan_projects_missing_name
      (repo : string) (before after : list value)
      (d : list (string * value)) :
  Forall (other_repository repo) before ->
  dict_get d "repositoryName" = None ->
  scan_projects (before ++ VDict d :: after)%list (VStr repo)
  = inl (KeyError "repositoryName").
Proof.
  intros Hall Hname.
  induction Hall as [|project rest (d0 & n0 & -> & Hget & Hne) _ IH]; simpl.
  - now rewrite Hname.
  - rewrite Hget. simpl.
    destruct (lower n0 =? lower repo) eqn:E; [|exact IH].
    apply String.eqb_eq in E. contradiction.
Qed.

(** The first project whose [repositoryName] equals the given name up to
    letter case decides the result, whatever follows it in the list: the
    call returns that project's [accountName] and [slug].  Only when both
    are [None] does it raise its [AppveyorError], whose message names the
    repository. *)
Theorem account_slug_for_repo_first_match
        (c : AppveyorClient) (repo name : string)
        (before after : list value) (d : list (string * value))
        (account slug : value) (w w' : World) :
  Projects.get c w = (inr (VList (before ++ VDict d :: after)%list), w') ->
  Forall (other_repository repo) before ->
  dict_get d "repositoryName" = Some (VStr name) ->
  lower name = lower repo ->
  dict_get d "accountName" = Some account ->
  dict_get d "slug" = Some slug ->
  account_slug_for_repo c (VStr repo) w
  = (if is_none account && is_none slug
     then inl (AppveyorError (VStr (invalid_repo_msg (VStr repo))))
     else inr (account, slug),
     w').
Proof.
  intros Hget Hall Hname Heq Ha Hs.
  unfold account_slug_for_repo, bind. rewrite Hget. simpl.
  rewrite (scan_projects_first_match repo name before after d Hall Hname Heq).
  rewrite Ha, Hs. simpl.
  destruct (is_none account); simpl; [|reflexivity].
  now destruct (is_none slug).
Qed.

Lemma account_slug_for_repo_first_match_witness :
  account_slug_for_repo
    (sample_client (mkResponse 200 "[...]" (Some (VList sample_projects))))
    (VStr "feodorfitsner/DEMO-APP") []
  = (inr (VStr "appvyr", VStr "demo-app-335"),
     [mkRequest GET "https://ci.appveyor.com//api/projects" None None]).
Proof.
  apply (account_slug_for_repo_first_match
           (sample_client (mkResponse 200 "[...]" (Some (VList sample_projects))))
           "feodorfitsner/DEMO-APP" "FeodorFitsner/demo-app" [] []
           [("repositoryName", VStr "FeodorFitsner/demo-app");
            ("accountName", VStr "appvyr");
            ("slug", VStr "demo-app-335")]
           (VStr "appvyr") (VStr "demo-app-335") []);
    try reflexivity.
  constructor.
Defined.

(** A project without a [repositoryName] entry, met before any match,
    ends the call in [KeyError]; so does a matching project without
    [accountName]. *)
Theorem account_slug_for_repo_missing_key
        (c : AppveyorClient) (repo : string)
        (before after : list value) (d : list (string * value))
        (w w' : World) :
  Projects.get c w = (inr (VList (before ++ VDict d :: after)%list), w') ->
  Forall (other_repository repo) before ->
  (dict_get d "repositoryName" = None ->
   account_slug_for_repo c (VStr repo) w
   = (inl (KeyError "repositoryName"), w'))
  /\ (forall name,
         dict_get d "repositoryName" = Some (VStr name) ->
         lower name = lower repo ->
         dict_get d "accountName" = None ->
         account_slug_for_repo c (VStr repo) w
         = (inl (KeyError "accountName"), w')).
Proof.
  intros Hget Hall. split.
  - intros Hname. unfold account_slug_for_repo, bind. rewrite Hget. simpl.
    now rewrite (scan_projects_missing_name repo before after d Hall Hname).
  - intros name Hname Heq Ha.
    unfold account_slug_for_repo, bind. rewrite Hget. simpl.
    rewrite (scan_projects_first_match repo name before after d Hall Hname Heq).
    now rewrite Ha.
Qed.

Lemma account_slug_for_repo_missing_key_witness :
  account_slug_for_repo
    (sample_client
       (mkResponse 200 "[...]"
                   (Some (VList [VDict [("name", VStr "demo-app")]]))))
    (VStr "someone/else") []
  = (inl (KeyError "repositoryName"),
     [mkRequest GET "https://ci.appveyor.com//api/projects" None None]).
Proof.
  apply (account_slug_for_repo_missing_key
           (sample_client
              (mkResponse 200 "[...]"
                          (Some (VList [VDict [("name", VStr "demo-app")]]))))
           "someone/else" [] [] [("name", VStr "demo-app")] []);
    try reflexivity.
  constructor.
Defined.

(** Whatever the argument and whatever the server answers, the lookup
    issues exactly one request, the GET of the project list: nothing that
    follows the fetch touches the network. *)
Theorem account_slug_for_repo_issues_one_get
        (c : AppveyorClient) (repo_full_name : value) (w : World) :
  issued (account_slug_for_repo c repo_full_name) w
  = (w ++ [mkRequest GET (_make_url c "/api/projects") None None])%list.
Proof.
  unfold issued, account_slug_for_repo, bind.
  rewrite projects_get_run. simpl.
  destruct (answer c _ w) as [e|projects]; simpl; [reflexivity|].
  destruct (iter projects) as [e|items]; simpl; [reflexivity|].
  destruct (scan_projects items repo_full_name) as [e|[a p]]; simpl;
    [reflexivity|].
  destruct a as [a|]; simpl; [|reflexivity].
  destruct (is_none a); simpl.
  - destruct p as [p|]; simpl; [|reflexivity].
    now destruct (is_none p).
  - now destruct p.
Qed.


(** ** Construction *)

Lemma header_get_set_same (h : Headers) (k k' v : string) :
  lower k = lower k' ->
  header_get (header_set h k v) k' = Some v.
Proof.
  intros Hk. induction h as [|[k0 v0] r IH]; simpl.
  - now rewrite Hk, String.eqb_refl.
  - destruct (lower k0 =? lower k) eqn:E; simpl.
    + now rewrite Hk, String.eqb_refl.
    + rewrite <- Hk, E. exact IH.
Qed.

Lemma header_get_set_other (h : Headers) (k k' v : string) :
  lower k <> lower k' ->
  header_get (header_set h k v) k' = header_get h k'.
Proof.
  intros Hk. induction h as [|[k0 v0] r IH]; simpl.
  - destruct (lower k =? lower k') eqn:E; [|reflexivity].
    apply String.eqb_eq in E. contradiction.
  - destruct (lower k0 =? lower k) eqn:E; simpl.
    + apply String.eqb_eq in E.
      destruct (lower k =? lower k') eqn:E1.
      * apply String.eqb_eq in E1. contradiction.
      * rewrite E. now rewrite E1.
    + now rewrite IH.
Qed.

(** After construction the session's headers hold the bearer token of the
    given token, the JSON content type and the client's user agent, under
    any spelling of the three names; every other header of the session
    is as it was. *)
Theorem init_sets_headers
        (session : Session) (session_headers : Headers)
        (token : value) (endpoint : option string) :
  let headers := fst (__init__ session session_headers token endpoint) in
  (forall k, lower k = "authorization" ->
             header_get headers k = Some ("Bearer " ++ str token))
  /\ (forall k, lower k = "content-type" ->
                header_get headers k = Some "application/json")
  /\ (forall k, lower k = "user-agent" ->
                header_get headers k = Some "Appveyor Python Client")
  /\ (forall k, lower k <> "authorization" -> lower k <> "content-type" ->
                lower k <> "user-agent" ->
                header_get headers k = header_get session_headers k).
Proof.
  unfold __init__, _authenticate, headers_update. simpl.
  repeat split.
  - intros k Hk. apply header_get_set_same. now rewrite Hk.
  - intros k Hk.
    rewrite header_get_set_other by (rewrite Hk; discriminate).
    rewrite header_get_set_other by (rewrite Hk; discriminate).
    apply header_get_set_same. now rewrite Hk.
  - intros k Hk.
    rewrite header_get_set_other by (rewrite Hk; discriminate).
    apply header_get_set_same. now rewrite Hk.
  - intros k H1 H2 H3.
    rewrite !header_get_set_other; auto.
Qed.

Lemma init_run
        (session : Session) (session_headers : Headers)
        (token : value) (endpoint : option string) (w : World) :
  let self := mkClient (chosen_endpoint endpoint) session in
  let rq := mkRequest GET (chosen_endpoint endpoint ++ "/api/roles")
                      None None in
  snd (__init__ session session_headers token endpoint) w
  = (match answer self rq w with
     | inl e => inl e
     | inr _ => inr self
     end,
     (w ++ [rq])%list).
Proof.
  unfold __init__, _authenticate, chosen_endpoint, bind. simpl.
  destruct endpoint as [e|]; simpl.
  - destruct (e =? EmptyString); simpl; rewrite run_get; simpl;
      unfold _make_url; simpl; now destruct (answer _ _ w).
  - rewrite run_get; simpl; unfold _make_url; simpl;
      now destruct (answer _ _ w).
Qed.

(** Construction issues exactly one request, a GET of [/api/roles] on the
    chosen endpoint (the default one when the argument is [None] or
    empty).  It yields the client when the interpreter accepts the
    response and raises the interpreter's or the transport's exception
    otherwise. *)
Theorem init_authenticates_with_one_get
        (session : Session) (session_headers : Headers)
        (token : value) (endpoint : option string) (w : World) :
  let self := mkClient (chosen_endpoint endpoint) session in
  let rq := mkRequest GET (chosen_endpoint endpoint ++ "/api/roles")
                      None None in
  issued (snd (__init__ session session_headers token endpoint)) w
  = (w ++ [rq])%list
  /\ outcome (snd (__init__ session session_headers token endpoint)) w
     = match transport session w rq with
       | inl e => inl e
       | inr response =>
           match _parse_response_contents response with
           | inl e => inl e
           | inr _ => inr self
           end
       end.
Proof.
  unfold issued, outcome. rewrite init_run. simpl. split; [reflexivity|].
  unfold answer. simpl. now destruct (transport session w _).
Qed.

(** A token the server rejects: when the answer to the authentication
    request has a status other than 200 and 204, construction raises
    [AppveyorError] with that status and no client comes out. *)
Theorem init_fails_on_rejected_token
        (session : Session) (session_headers : Headers)
        (token : value) (endpoint : option string) (w : World)
        (r : Response) :
  transport session w
            (mkRequest GET (chosen_endpoint endpoint ++ "/api/roles")
                       None None) = inr r ->
  status_code r <> 200 -> status_code r <> 204 ->
  outcome (snd (__init__ session session_headers token endpoint)) w
  = inl (AppveyorError (VDict [("status_code", VInt (status_code r))])).
Proof.
  intros Ht H200 H204. unfold outcome.
  rewrite init_run.
  unfold answer. simpl. rewrite Ht.
  now rewrite (parse_other_status r H200 H204).
Qed.

Lemma init_fails_on_rejected_token_witness :
  outcome (snd (__init__ (mkSession (fun _ _ =>
                                      inr (mkResponse 401 "Unauthorized" None)))
                         [("Accept", "*/*")] (VStr "bad-token") None)) []
  = inl (AppveyorError (VDict [("status_code", VInt 401)])).
Proof.
  apply (init_fails_on_rejected_token
           (mkSession (fun _ _ => inr (mkResponse 401 "Unauthorized" None)))
           [("Accept", "*/*")] (VStr "bad-token") None []
           (mkResponse 401 "Unauthorized" None));
    [reflexivity | simpl; lia | simpl; lia].
Defined.

(** ** What each group asks for *)

(** The three update methods of [Projects] send a PUT to one and the same
    path, [/api/projects/<account>/<slug>/settings/build-number].
    [update] and [update_settings] send their argument serialised as the
    body; [update_build_number] sends no body and passes the dict
    [{'nextBuildNumber': n}] through [json=]. *)
Theorem projects_updates_share_one_path
        (c : AppveyorClient) (account_name project_slug x : value)
        (w : World) :
  Projects.update c account_name project_slug x w
  = dispatched c PUT (build_number_path account_name project_slug)
      (Some (json_dumps x)) None w
  /\ Projects.update_settings c account_name project_slug x w
     = Projects.update c account_name project_slug x w
  /\ Projects.update_build_number c account_name project_slug x w
     = dispatched c PUT (build_number_path account_name project_slug)
         None (Some (VDict [("nextBuildNumber", x)])) w.
Proof.
  rewrite project_update_settings_run, project_update_run,
    project_update_build_number_run.
  repeat split.
Qed.

(** The read methods of [Projects] each issue one GET under
    [/api/projects/<account>/<slug>]: the project itself, its
    [/branch/<b>], [/build/<v>], [/deployments] and [/settings/yaml]. *)
Theorem projects_read_paths
        (c : AppveyorClient) (account_name project_slug x : value)
        (w : World) :
  let base := "/api/projects/" ++ str account_name ++ "/"
              ++ str project_slug in
  Projects.last_build c account_name project_slug w
  = dispatched c GET base None None w
  /\ Projects.last_branch_build c account_name project_slug x w
     = dispatched c GET
         ("/api/projects/" ++ str account_name ++ "/" ++ str project_slug
          ++ "/branch/" ++ str x) None None w
  /\ Projects.build c account_name project_slug x w
     = dispatched c GET
         ("/api/projects/" ++ str account_name ++ "/" ++ str project_slug
          ++ "/build/" ++ str x) None None w
  /\ Projects.deployments c account_name project_slug w
     = dispatched c GET
         ("/api/projects/" ++ str account_name ++ "/" ++ str project_slug
          ++ "/deployments") None None w
  /\ Projects.settings c account_name project_slug w
     = dispatched c GET
         ("/api/projects/" ++ str account_name ++ "/" ++ str project_slug
          ++ "/settings/yaml") None None w.
Proof.
  simpl.
  rewrite last_build_run, last_branch_build_run, build_run,
    project_deployments_run, project_settings_run.
  repeat split.
Qed.

(** The delete methods that format their template issue one DELETE whose
    path ends in the text of the argument: a user, a collaborator, a
    project, its build cache, a build, an environment. *)
Theorem delete_paths_carry_the_id
        (c : AppveyorClient) (a s x : value) (w : World) :
  Users.delete c x w
  = dispatched c DELETE ("/api/users/" ++ str x) None None w
  /\ Collaborators.delete c x w
     = dispatched c DELETE ("/api/collaborators/" ++ str x) None None w
  /\ Projects.delete c a s w
     = dispatched c DELETE
         ("/api/projects/" ++ str a ++ "/" ++ str s) None None w
  /\ Projects.delete_build_cache c a s w
     = dispatched c DELETE
         ("/api/projects/" ++ str a ++ "/" ++ str s ++ "/buildcache")
         None None w
  /\ Builds.cancel c a s x w
     = dispatched c DELETE
         ("/api/builds/" ++ str a ++ "/" ++ str s ++ "/" ++ str x)
         None None w
  /\ Environments.delete c x w
     = dispatched c DELETE ("/api/environments/" ++ str x) None None w.
Proof.
  rewrite users_delete_run, collaborators_delete_run, project_delete_run,
    project_delete_build_cache_run, builds_cancel_run,
    environments_delete_run.
  repeat split.
Qed.

(** The remaining read methods: [Users.get] asks for [/api/users], with
    [/<id>] when the id is truthy; [Builds.log] for
    [/api/buildjobs/<id>/log]; [Environments] for [/api/environments],
    [/<id>/settings] and [/<id>/deployments]; [Deployments.get] for
    [/api/deployments/<id>].  Each is one GET without a body. *)
Theorem read_paths
        (c : AppveyorClient) (x : value) (w : World) :
  Users.get c x w
  = dispatched c GET
      ("/api/users" ++ (if truthy x then "/" ++ str x else EmptyString))
      None None w
  /\ Builds.log c x w
     = dispatched c GET ("/api/buildjobs/" ++ str x ++ "/log") None None w
  /\ Environments.get c w
     = dispatched c GET "/api/environments" None None w
  /\ Environments.settings c x w
     = dispatched c GET ("/api/environments/" ++ str x ++ "/settings")
         None None w
  /\ Environments.deployments c x w
     = dispatched c GET ("/api/environments/" ++ str x ++ "/deployments")
         None None w
  /\ Deployments.get c x w
     = dispatched c GET ("/api/deployments/" ++ str x) None None w.
Proof.
  rewrite users_get_run, builds_log_run, environments_get_run,
    environments_settings_run, environments_deployments_run,
    deployments_get_run.
  repeat split.
Qed.

(** The methods that only serialise their argument: each issues one
    request with the JSON text as [data] and no [json=], a PUT for the
    updates and a POST for the additions, on the path of its group. *)
Theorem write_bodies
        (c : AppveyorClient) (x y : value) (w : World) :
  Users.update c x w
  = dispatched c PUT "/api/users" (Some (json_dumps x)) None w
  /\ Collaborators.add c x y w
     = dispatched c POST "/api/collaborators"
         (Some (json_dumps (VDict [("email", x); ("roleId", y)]))) None w
  /\ Collaborators.update c x y w
     = dispatched c PUT "/api/collaborators"
         (Some (json_dumps (VDict [("userId", x); ("roleId", y)]))) None w
  /\ Roles.add_role c x w
     = dispatched c POST "/api/roles"
         (Some (json_dumps (VDict [("name", x)]))) None w
  /\ Roles.update_role c x w
     = dispatched c PUT "/api/roles" (Some (json_dumps x)) None w
  /\ Environments.add c x w
     = dispatched c POST "/api/environments" (Some (json_dumps x)) None w
  /\ Environments.update c x w
     = dispatched c PUT "/api/environments" (Some (json_dumps x)) None w
  /\ Deployments.cancel c x w
     = dispatched c PUT "/api/deployments/stop"
         (Some (json_dumps (VDict [("deploymentId", x)]))) None w.
Proof.
  rewrite users_update_run, collaborators_add_run, collaborators_update_run,
    roles_add_role_run, roles_update_role_run, environments_add_run,
    environments_update_run, deployments_cancel_run.
  repeat split.
Qed.

(** [Deployments.start] always sends [environmentVariables], the empty
    dict included, and sends [buildJobId] only for a truthy job id, as
    the last entry; the request is one POST to [/api/deployments]. *)
Theorem deployments_start_body
        (c : AppveyorClient)
        (account_name project_slug environment_name build_version
           build_job_id environment_variables : value) (w : World) :
  let data := deployment_data account_name project_slug environment_name
                              build_version build_job_id
                              environment_variables in
  Deployments.start c account_name project_slug environment_name
                    build_version build_job_id environment_variables w
  = (answer c (mkRequest POST (_make_url c "/api/deployments")
                         (Some (json_dumps (VDict data))) None) w,
     (w ++ [mkRequest POST (_make_url c "/api/deployments")
              (Some (json_dumps (VDict data))) None])%list)
  /\ dict_get data "environmentVariables" = Some environment_variables
  /\ dict_get data "buildJobId"
     = (if truthy build_job_id then Some build_job_id else None).
Proof.
  simpl. rewrite deployments_start_run. unfold deployment_data.
  repeat split.
  now destruct (truthy build_job_id).
Qed.

(** ** Blanks and ids *)

Lemma dispatched_blank c v path body js w :
  has_char " " path = true ->
  dispatched c v path body js w = (inl (ValueError too_many_values), w).
Proof. intros H. unfold dispatched. now rewrite H. Qed.

Lemma dispatched_no_blank c v path body js w :
  has_char " " path = false ->
  dispatched c v path body js w
  = (answer c (request_of c v path body js) w,
     (w ++ [request_of c v path body js])%list).
Proof. intros H. unfold dispatched. now rewrite H. Qed.

(** An id whose text has a blank never reaches the network: the methods
    that put it in the path raise [ValueError] from the dispatcher's
    unpacking, and the request list is unchanged. *)
Theorem blank_in_id_fails_before_sending
        (c : AppveyorClient) (id : value) (w : World) :
  has_char " " (str id) = true ->
  Users.delete c id w = (inl (ValueError too_many_values), w)
  /\ Collaborators.delete c id w = (inl (ValueError too_many_values), w)
  /\ Environments.delete c id w = (inl (ValueError too_many_values), w)
  /\ Deployments.get c id w = (inl (ValueError too_many_values), w)
  /\ Builds.log c id w = (inl (ValueError too_many_values), w).
Proof.
  intros Hb.
  rewrite users_delete_run, collaborators_delete_run,
    environments_delete_run, deployments_get_run, builds_log_run.
  repeat split; apply dispatched_blank;
    repeat (rewrite has_char_append; simpl);
    rewrite ?Hb, ?orb_true_r; reflexivity.
Qed.

Lemma blank_in_id_fails_before_sending_witness :
  Users.delete (sample_client (mkResponse 204 EmptyString None))
               (VStr "john smith") []
  = (inl (ValueError too_many_values), []).
Proof.
  apply (blank_in_id_fails_before_sending
           (sample_client (mkResponse 204 EmptyString None))
           (VStr "john smith") []).
  reflexivity.
Defined.

Lemma append_cancel_l (p a b : string) : p ++ a = p ++ b -> a = b.
Proof.
  induction p as [|ch p IH]; simpl; intros H; [exact H|].
  injection H as H. now apply IH.
Qed.

Lemma app_singleton_inj {A : Type} (l : list A) (x y : A) :
  (l ++ [x])%list = (l ++ [y])%list -> x = y.
Proof.
  intros H. apply app_inv_head in H. now injection H.
Qed.

(** [Users.delete] tells its targets apart: for ids without a blank, two
    calls issue the same request exactly when the ids have the same
    text. *)
Theorem users_delete_request_determines_id
        (c : AppveyorClient) (id1 id2 : value) (w : World) :
  has_char " " (str id1) = false ->
  has_char " " (str id2) = false ->
  issued (Users.delete c id1) w = issued (Users.delete c id2) w
  <-> str id1 = str id2.
Proof.
  intros H1 H2. unfold issued.
  rewrite !users_delete_run.
  rewrite !dispatched_no_blank
    by (rewrite has_char_append; simpl; assumption).
  simpl. split.
  - intros H. apply app_singleton_inj in H. injection H as H.
    unfold _make_url in H. apply append_cancel_l in H.
    now apply (append_cancel_l "/api/users/").
  - now intros ->.
Qed.

Lemma users_delete_request_determines_id_witness :
  issued (Users.delete (sample_client (mkResponse 204 EmptyString None))
                       (VInt 12)) []
  = issued (Users.delete (sample_client (mkResponse 204 EmptyString None))
                         (VStr "12")) []
  <-> str (VInt 12) = str (VStr "12").
Proof.
  apply (users_delete_request_determines_id
           (sample_client (mkResponse 204 EmptyString None))
           (VInt 12) (VStr "12") []); reflexivity.
Defined.

(** ** Builds, the whole decision *)

(** [Builds.start] goes through in two cases only: a truthy branch with
    pull request number and commit both falsy, and a truthy pull request
    number with commit and branch both falsy.  Then it issues one POST to
    [/api/builds] with the chosen field, and [environmentVariables] when
    that dict is not empty.  In every other combination, a lone commit
    included, it raises the usage error and issues nothing. *)
Theorem start_decision_table
        (c : AppveyorClient)
        (account_name project_slug branch pull_request_number commit
           environment_variables : value) (w : World) :
  let sent field v :=
    (w ++ [mkRequest POST (_make_url c "/api/builds")
             (Some (start_body account_name project_slug field v
                               environment_variables)) None])%list in
  if truthy branch && negb (truthy pull_request_number)
     && negb (truthy commit)
  then issued (Builds.start c account_name project_slug branch
                            pull_request_number commit
                            environment_variables) w
       = sent "branch" branch
  else if truthy pull_request_number && negb (truthy commit)
          && negb (truthy branch)
  then issued (Builds.start c account_name project_slug branch
                            pull_request_number commit
                            environment_variables) w
       = sent "pullRequestId" pull_request_number
  else Builds.start c account_name project_slug branch pull_request_number
                    commit environment_variables w
       = (inl (AppveyorClientError Builds.start_error_msg), w).
Proof.
  unfold issued, Builds.start, bind, start_body.
  destruct (truthy branch), (truthy pull_request_number), (truthy commit);
    simpl; try reflexivity;
    change "POST /api/builds" with ("POST " ++ "/api/builds");
    rewrite request_post by reflexivity; now rewrite run_post.
Qed.
